(** * TemucoSoft core_api: RUT validator, models and serializers

    A shallow embedding of [core_api/validators.py], [core_api/models.py]
    and [core_api/serializers.py], followed by the properties of the
    specification that can be stated over it.

    Python values are modelled as follows.
    - A [str] is the list of its Unicode code points ([pystr]).
    - An [int] is a [Z].
    - A call either returns a value or raises; [outcome] records which.
    - A [DecimalField] with two decimal places is a [Z] counting hundredths.
    - Database tables are finite maps or lists of rows. *)

From Stdlib Require Import ZArith NArith List Lia Bool String Ascii.
From stdpp Require Import gmap strings list fin_maps.
Import ListNotations.

Local Open Scope Z_scope.

(* ===================================================================== *)
(** * The Unicode tables behind CPython's [str] methods                   *)
(* ===================================================================== *)

(** [str.strip], [str.upper], [str.isdigit] and [int] consult the Unicode
    character database.  The tables below are those of Unicode 14.0.0
    (CPython 3.11), written out in full so that the string functions are
    defined on every code point and not only on ASCII. *)
Module Unicode.

(** First code point of every run of ten decimal digits (category Nd);
    the digit value of a member is its offset in the run. *)
Definition decimal_runs : list N :=
  [
   48; 1632; 1776; 1984; 2406; 2534; 2662; 2790; 2918; 3046;
   3174; 3302; 3430; 3558; 3664; 3792; 3872; 4160; 4240; 6112;
   6160; 6470; 6608; 6784; 6800; 6992; 7088; 7232; 7248; 42528;
   43216; 43264; 43472; 43504; 43600; 44016; 65296; 66720; 68912; 69734;
   69872; 69942; 70096; 70384; 70736; 70864; 71248; 71360; 71472; 71904;
   72016; 72784; 73040; 73120; 92768; 92864; 93008; 120782; 120792; 120802;
   120812; 120822; 123200; 123632; 125264; 130032
  ]%N.

(** Ranges of the digit characters that are not decimal digits. *)
Definition other_digit_ranges : list (N * N) :=
  [
   (178, 179); (185, 185); (4969, 4977); (6618, 6618); (8304, 8304); (8308, 8313);
   (8320, 8329); (9312, 9320); (9332, 9340); (9352, 9360); (9450, 9450); (9461, 9469);
   (9471, 9471); (10102, 10110); (10112, 10120); (10122, 10130); (68160, 68163); (69216, 69224);
   (69714, 69722); (127232, 127242)
  ]%N.

(** The white-space characters. *)
Definition whitespace : list N :=
  [
   9; 10; 11; 12; 13; 28; 29; 30; 31; 32; 133; 160;
   5760; 8192; 8193; 8194; 8195; 8196; 8197; 8198; 8199; 8200; 8201; 8202;
   8232; 8233; 8239; 8287; 12288
  ]%N.

(** Upper-case mappings to a single code point. *)
Definition simple_uppercase : list (N * N) :=
  [
   (97, 65); (98, 66); (99, 67); (100, 68); (101, 69); (102, 70);
   (103, 71); (104, 72); (105, 73); (106, 74); (107, 75); (108, 76);
   (109, 77); (110, 78); (111, 79); (112, 80); (113, 81); (114, 82);
   (115, 83); (116, 84); (117, 85); (118, 86); (119, 87); (120, 88);
   (121, 89); (122, 90); (181, 924); (224, 192); (225, 193); (226, 194);
   (227, 195); (228, 196); (229, 197); (230, 198); (231, 199); (232, 200);
   (233, 201); (234, 202); (235, 203); (236, 204); (237, 205); (238, 206);
   (239, 207); (240, 208); (241, 209); (242, 210); (243, 211); (244, 212);
   (245, 213); (246, 214); (248, 216); (249, 217); (250, 218); (251, 219);
   (252, 220); (253, 221); (254, 222); (255, 376); (257, 256); (259, 258);
   (261, 260); (263, 262); (265, 264); (267, 266); (269, 268); (271, 270);
   (273, 272); (275, 274); (277, 276); (279, 278); (281, 280); (283, 282);
   (285, 284); (287, 286); (289, 288); (291, 290); (293, 292); (295, 294);
   (297, 296); (299, 298); (301, 300); (303, 302); (305, 73); (307, 306);
   (309, 308); (311, 310); (314, 313); (316, 315); (318, 317); (320, 319);
   (322, 321); (324, 323); (326, 325); (328, 327); (331, 330); (333, 332);
   (335, 334); (337, 336); (339, 338); (341, 340); (343, 342); (345, 344);
   (347, 346); (349, 348); (351, 350); (353, 352); (355, 354); (357, 356);
   (359, 358); (361, 360); (363, 362); (365, 364); (367, 366); (369, 368);
   (371, 370); (373, 372); (375, 374); (378, 377); (380, 379); (382, 381);
   (383, 83); (384, 579); (387, 386); (389, 388); (392, 391); (396, 395);
   (402, 401); (405, 502); (409, 408); (410, 573); (414, 544); (417, 416);
   (419, 418); (421, 420); (424, 423); (429, 428); (432, 431); (436, 435);
   (438, 437); (441, 440); (445, 444); (447, 503); (453, 452); (454, 452);
   (456, 455); (457, 455); (459, 458); (460, 458); (462, 461); (464, 463);
   (466, 465); (468, 467); (470, 469); (472, 471); (474, 473); (476, 475);
   (477, 398); (479, 478); (481, 480); (483, 482); (485, 484); (487, 486);
   (489, 488); (491, 490); (493, 492); (495, 494); (498, 497); (499, 497);
   (501, 500); (505, 504); (507, 506); (509, 508); (511, 510); (513, 512);
   (515, 514); (517, 516); (519, 518); (521, 520); (523, 522); (525, 524);
   (527, 526); (529, 528); (531, 530); (533, 532); (535, 534); (537, 536);
   (539, 538); (541, 540); (543, 542); (547, 546); (549, 548); (551, 550);
   (553, 552); (555, 554); (557, 556); (559, 558); (561, 560); (563, 562);
   (572, 571); (575, 11390); (576, 11391); (578, 577); (583, 582); (585, 584);
   (587, 586); (589, 588); (591, 590); (592, 11375); (593, 11373); (594, 11376);
   (595, 385); (596, 390); (598, 393); (599, 394); (601, 399); (603, 400);
   (604, 42923); (608, 403); (609, 42924); (611, 404); (613, 42893); (614, 42922);
   (616, 407); (617, 406); (618, 42926); (619, 11362); (620, 42925); (623, 412);
   (625, 11374); (626, 413); (629, 415); (637, 11364); (640, 422); (642, 42949);
   (643, 425); (647, 42929); (648, 430); (649, 580); (650, 433); (651, 434);
   (652, 581); (658, 439); (669, 42930); (670, 42928); (837, 921); (881, 880);
   (883, 882); (887, 886); (891, 1021); (892, 1022); (893, 1023); (940, 902);
   (941, 904); (942, 905); (943, 906); (945, 913); (946, 914); (947, 915);
   (948, 916); (949, 917); (950, 918); (951, 919); (952, 920); (953, 921);
   (954, 922); (955, 923); (956, 924); (957, 925); (958, 926); (959, 927);
   (960, 928); (961, 929); (962, 931); (963, 931); (964, 932); (965, 933);
   (966, 934); (967, 935); (968, 936); (969, 937); (970, 938); (971, 939);
   (972, 908); (973, 910); (974, 911); (976, 914); (977, 920); (981, 934);
   (982, 928); (983, 975); (985, 984); (987, 986); (989, 988); (991, 990);
   (993, 992); (995, 994); (997, 996); (999, 998); (1001, 1000); (1003, 1002);
   (1005, 1004); (1007, 1006); (1008, 922); (1009, 929); (1010, 1017); (1011, 895);
   (1013, 917); (1016, 1015); (1019, 1018); (1072, 1040); (1073, 1041); (1074, 1042);
   (1075, 1043); (1076, 1044); (1077, 1045); (1078, 1046); (1079, 1047); (1080, 1048);
   (1081, 1049); (1082, 1050); (1083, 1051); (1084, 1052); (1085, 1053); (1086, 1054);
   (1087, 1055); (1088, 1056); (1089, 1057); (1090, 1058); (1091, 1059); (1092, 1060);
   (1093, 1061); (1094, 1062); (1095, 1063); (1096, 1064); (1097, 1065); (1098, 1066);
   (1099, 1067); (1100, 1068); (1101, 1069); (1102, 1070); (1103, 1071); (1104, 1024);
   (1105, 1025); (1106, 1026); (1107, 1027); (1108, 1028); (1109, 1029); (1110, 1030);
   (1111, 1031); (1112, 1032); (1113, 1033); (1114, 1034); (1115, 1035); (1116, 1036);
   (1117, 1037); (1118, 1038); (1119, 1039); (1121, 1120); (1123, 1122); (1125, 1124);
   (1127, 1126); (1129, 1128); (1131, 1130); (1133, 1132); (1135, 1134); (1137, 1136);
   (1139, 1138); (1141, 1140); (1143, 1142); (1145, 1144); (1147, 1146); (1149, 1148);
   (1151, 1150); (1153, 1152); (1163, 1162); (1165, 1164); (1167, 1166); (1169, 1168);
   (1171, 1170); (1173, 1172); (1175, 1174); (1177, 1176); (1179, 1178); (1181, 1180);
   (1183, 1182); (1185, 1184); (1187, 1186); (1189, 1188); (1191, 1190); (1193, 1192);
   (1195, 1194); (1197, 1196); (1199, 1198); (1201, 1200); (1203, 1202); (1205, 1204);
   (1207, 1206); (1209, 1208); (1211, 1210); (1213, 1212); (1215, 1214); (1218, 1217);
   (1220, 1219); (1222, 1221); (1224, 1223); (1226, 1225); (1228, 1227); (1230, 1229);
   (1231, 1216); (1233, 1232); (1235, 1234); (1237, 1236); (1239, 1238); (1241, 1240);
   (1243, 1242); (1245, 1244); (1247, 1246); (1249, 1248); (1251, 1250); (1253, 1252);
   (1255, 1254); (1257, 1256); (1259, 1258); (1261, 1260); (1263, 1262); (1265, 1264);
   (1267, 1266); (1269, 1268); (1271, 1270); (1273, 1272); (1275, 1274); (1277, 1276);
   (1279, 1278); (1281, 1280); (1283, 1282); (1285, 1284); (1287, 1286); (1289, 1288);
   (1291, 1290); (1293, 1292); (1295, 1294); (1297, 1296); (1299, 1298); (1301, 1300);
   (1303, 1302); (1305, 1304); (1307, 1306); (1309, 1308); (1311, 1310); (1313, 1312);
   (1315, 1314); (1317, 1316); (1319, 1318); (1321, 1320); (1323, 1322); (1325, 1324);
   (1327, 1326); (1377, 1329); (1378, 1330); (1379, 1331); (1380, 1332); (1381, 1333);
   (1382, 1334); (1383, 1335); (1384, 1336); (1385, 1337); (1386, 1338); (1387, 1339);
   (1388, 1340); (1389, 1341); (1390, 1342); (1391, 1343); (1392, 1344); (1393, 1345);
   (1394, 1346); (1395, 1347); (1396, 1348); (1397, 1349); (1398, 1350); (1399, 1351);
   (1400, 1352); (1401, 1353); (1402, 1354); (1403, 1355); (1404, 1356); (1405, 1357);
   (1406, 1358); (1407, 1359); (1408, 1360); (1409, 1361); (1410, 1362); (1411, 1363);
   (1412, 1364); (1413, 1365); (1414, 1366); (4304, 7312); (4305, 7313); (4306, 7314);
   (4307, 7315); (4308, 7316); (4309, 7317); (4310, 7318); (4311, 7319); (4312, 7320);
   (4313, 7321); (4314, 7322); (4315, 7323); (4316, 7324); (4317, 7325); (4318, 7326);
   (4319, 7327); (4320, 7328); (4321, 7329); (4322, 7330); (4323, 7331); (4324, 7332);
   (4325, 7333); (4326, 7334); (4327, 7335); (4328, 7336); (4329, 7337); (4330, 7338);
   (4331, 7339); (4332, 7340); (4333, 7341); (4334, 7342); (4335, 7343); (4336, 7344);
   (4337, 7345); (4338, 7346); (4339, 7347); (4340, 7348); (4341, 7349); (4342, 7350);
   (4343, 7351); (4344, 7352); (4345, 7353); (4346, 7354); (4349, 7357); (4350, 7358);
   (4351, 7359); (5112, 5104); (5113, 5105); (5114, 5106); (5115, 5107); (5116, 5108);
   (5117, 5109); (7296, 1042); (7297, 1044); (7298, 1054); (7299, 1057); (7300, 1058);
   (7301, 1058); (7302, 1066); (7303, 1122); (7304, 42570); (7545, 42877); (7549, 11363);
   (7566, 42950); (7681, 7680); (7683, 7682); (7685, 7684); (7687, 7686); (7689, 7688);
   (7691, 7690); (7693, 7692); (7695, 7694); (7697, 7696); (7699, 7698); (7701, 7700);
   (7703, 7702); (7705, 7704); (7707, 7706); (7709, 7708); (7711, 7710); (7713, 7712);
   (7715, 7714); (7717, 7716); (7719, 7718); (7721, 7720); (7723, 7722); (7725, 7724);
   (7727, 7726); (7729, 7728); (7731, 7730); (7733, 7732); (7735, 7734); (7737, 7736);
   (7739, 7738); (7741, 7740); (7743, 7742); (7745, 7744); (7747, 7746); (7749, 7748);
   (7751, 7750); (7753, 7752); (7755, 7754); (7757, 7756); (7759, 7758); (7761, 7760);
   (7763, 7762); (7765, 7764); (7767, 7766); (7769, 7768); (7771, 7770); (7773, 7772);
   (7775, 7774); (7777, 7776); (7779, 7778); (7781, 7780); (7783, 7782); (7785, 7784);
   (7787, 7786); (7789, 7788); (7791, 7790); (7793, 7792); (7795, 7794); (7797, 7796);
   (7799, 7798); (7801, 7800); (7803, 7802); (7805, 7804); (7807, 7806); (7809, 7808);
   (7811, 7810); (7813, 7812); (7815, 7814); (7817, 7816); (7819, 7818); (7821, 7820);
   (7823, 7822); (7825, 7824); (7827, 7826); (7829, 7828); (7835, 7776); (7841, 7840);
   (7843, 7842); (7845, 7844); (7847, 7846); (7849, 7848); (7851, 7850); (7853, 7852);
   (7855, 7854); (7857, 7856); (7859, 7858); (7861, 7860); (7863, 7862); (7865, 7864);
   (7867, 7866); (7869, 7868); (7871, 7870); (7873, 7872); (7875, 7874); (7877, 7876);
   (7879, 7878); (7881, 7880); (7883, 7882); (7885, 7884); (7887, 7886); (7889, 7888);
   (7891, 7890); (7893, 7892); (7895, 7894); (7897, 7896); (7899, 7898); (7901, 7900);
   (7903, 7902); (7905, 7904); (7907, 7906); (7909, 7908); (7911, 7910); (7913, 7912);
   (7915, 7914); (7917, 7916); (7919, 7918); (7921, 7920); (7923, 7922); (7925, 7924);
   (7927, 7926); (7929, 7928); (7931, 7930); (7933, 7932); (7935, 7934); (7936, 7944);
   (7937, 7945); (7938, 7946); (7939, 7947); (7940, 7948); (7941, 7949); (7942, 7950);
   (7943, 7951); (7952, 7960); (7953, 7961); (7954, 7962); (7955, 7963); (7956, 7964);
   (7957, 7965); (7968, 7976); (7969, 7977); (7970, 7978); (7971, 7979); (7972, 7980);
   (7973, 7981); (7974, 7982); (7975, 7983); (7984, 7992); (7985, 7993); (7986, 7994);
   (7987, 7995); (7988, 7996); (7989, 7997); (7990, 7998); (7991, 7999); (8000, 8008);
   (8001, 8009); (8002, 8010); (8003, 8011); (8004, 8012); (8005, 8013); (8017, 8025);
   (8019, 8027); (8021, 8029); (8023, 8031); (8032, 8040); (8033, 8041); (8034, 8042);
   (8035, 8043); (8036, 8044); (8037, 8045); (8038, 8046); (8039, 8047); (8048, 8122);
   (8049, 8123); (8050, 8136); (8051, 8137); (8052, 8138); (8053, 8139); (8054, 8154);
   (8055, 8155); (8056, 8184); (8057, 8185); (8058, 8170); (8059, 8171); (8060, 8186);
   (8061, 8187); (8112, 8120); (8113, 8121); (8126, 921); (8144, 8152); (8145, 8153);
   (8160, 8168); (8161, 8169); (8165, 8172); (8526, 8498); (8560, 8544); (8561, 8545);
   (8562, 8546); (8563, 8547); (8564, 8548); (8565, 8549); (8566, 8550); (8567, 8551);
   (8568, 8552); (8569, 8553); (8570, 8554); (8571, 8555); (8572, 8556); (8573, 8557);
   (8574, 8558); (8575, 8559); (8580, 8579); (9424, 9398); (9425, 9399); (9426, 9400);
   (9427, 9401); (9428, 9402); (9429, 9403); (9430, 9404); (9431, 9405); (9432, 9406);
   (9433, 9407); (9434, 9408); (9435, 9409); (9436, 9410); (9437, 9411); (9438, 9412);
   (9439, 9413); (9440, 9414); (9441, 9415); (9442, 9416); (9443, 9417); (9444, 9418);
   (9445, 9419); (9446, 9420); (9447, 9421); (9448, 9422); (9449, 9423); (11312, 11264);
   (11313, 11265); (11314, 11266); (11315, 11267); (11316, 11268); (11317, 11269); (11318, 11270);
   (11319, 11271); (11320, 11272); (11321, 11273); (11322, 11274); (11323, 11275); (11324, 11276);
   (11325, 11277); (11326, 11278); (11327, 11279); (11328, 11280); (11329, 11281); (11330, 11282);
   (11331, 11283); (11332, 11284); (11333, 11285); (11334, 11286); (11335, 11287); (11336, 11288);
   (11337, 11289); (11338, 11290); (11339, 11291); (11340, 11292); (11341, 11293); (11342, 11294);
   (11343, 11295); (11344, 11296); (11345, 11297); (11346, 11298); (11347, 11299); (11348, 11300);
   (11349, 11301); (11350, 11302); (11351, 11303); (11352, 11304); (11353, 11305); (11354, 11306);
   (11355, 11307); (11356, 11308); (11357, 11309); (11358, 11310); (11359, 11311); (11361, 11360);
   (11365, 570); (11366, 574); (11368, 11367); (11370, 11369); (11372, 11371); (11379, 11378);
   (11382, 11381); (11393, 11392); (11395, 11394); (11397, 11396); (11399, 11398); (11401, 11400);
   (11403, 11402); (11405, 11404); (11407, 11406); (11409, 11408); (11411, 11410); (11413, 11412);
   (11415, 11414); (11417, 11416); (11419, 11418); (11421, 11420); (11423, 11422); (11425, 11424);
   (11427, 11426); (11429, 11428); (11431, 11430); (11433, 11432); (11435, 11434); (11437, 11436);
   (11439, 11438); (11441, 11440); (11443, 11442); (11445, 11444); (11447, 11446); (11449, 11448);
   (11451, 11450); (11453, 11452); (11455, 11454); (11457, 11456); (11459, 11458); (11461, 11460);
   (11463, 11462); (11465, 11464); (11467, 11466); (11469, 11468); (11471, 11470); (11473, 11472);
   (11475, 11474); (11477, 11476); (11479, 11478); (11481, 11480); (11483, 11482); (11485, 11484);
   (11487, 11486); (11489, 11488); (11491, 11490); (11500, 11499); (11502, 11501); (11507, 11506);
   (11520, 4256); (11521, 4257); (11522, 4258); (11523, 4259); (11524, 4260); (11525, 4261);
   (11526, 4262); (11527, 4263); (11528, 4264); (11529, 4265); (11530, 4266); (11531, 4267);
   (11532, 4268); (11533, 4269); (11534, 4270); (11535, 4271); (11536, 4272); (11537, 4273);
   (11538, 4274); (11539, 4275); (11540, 4276); (11541, 4277); (11542, 4278); (11543, 4279);
   (11544, 4280); (11545, 4281); (11546, 4282); (11547, 4283); (11548, 4284); (11549, 4285);
   (11550, 4286); (11551, 4287); (11552, 4288); (11553, 4289); (11554, 4290); (11555, 4291);
   (11556, 4292); (11557, 4293); (11559, 4295); (11565, 4301); (42561, 42560); (42563, 42562);
   (42565, 42564); (42567, 42566); (42569, 42568); (42571, 42570); (42573, 42572); (42575, 42574);
   (42577, 42576); (42579, 42578); (42581, 42580); (42583, 42582); (42585, 42584); (42587, 42586);
   (42589, 42588); (42591, 42590); (42593, 42592); (42595, 42594); (42597, 42596); (42599, 42598);
   (42601, 42600); (42603, 42602); (42605, 42604); (42625, 42624); (42627, 42626); (42629, 42628);
   (42631, 42630); (42633, 42632); (42635, 42634); (42637, 42636); (42639, 42638); (42641, 42640);
   (42643, 42642); (42645, 42644); (42647, 42646); (42649, 42648); (42651, 42650); (42787, 42786);
   (42789, 42788); (42791, 42790); (42793, 42792); (42795, 42794); (42797, 42796); (42799, 42798);
   (42803, 42802); (42805, 42804); (42807, 42806); (42809, 42808); (42811, 42810); (42813, 42812);
   (42815, 42814); (42817, 42816); (42819, 42818); (42821, 42820); (42823, 42822); (42825, 42824);
   (42827, 42826); (42829, 42828); (42831, 42830); (42833, 42832); (42835, 42834); (42837, 42836);
   (42839, 42838); (42841, 42840); (42843, 42842); (42845, 42844); (42847, 42846); (42849, 42848);
   (42851, 42850); (42853, 42852); (42855, 42854); (42857, 42856); (42859, 42858); (42861, 42860);
   (42863, 42862); (42874, 42873); (42876, 42875); (42879, 42878); (42881, 42880); (42883, 42882);
   (42885, 42884); (42887, 42886); (42892, 42891); (42897, 42896); (42899, 42898); (42900, 42948);
   (42903, 42902); (42905, 42904); (42907, 42906); (42909, 42908); (42911, 42910); (42913, 42912);
   (42915, 42914); (42917, 42916); (42919, 42918); (42921, 42920); (42933, 42932); (42935, 42934);
   (42937, 42936); (42939, 42938); (42941, 42940); (42943, 42942); (42945, 42944); (42947, 42946);
   (42952, 42951); (42954, 42953); (42961, 42960); (42967, 42966); (42969, 42968); (42998, 42997);
   (43859, 42931); (43888, 5024); (43889, 5025); (43890, 5026); (43891, 5027); (43892, 5028);
   (43893, 5029); (43894, 5030); (43895, 5031); (43896, 5032); (43897, 5033); (43898, 5034);
   (43899, 5035); (43900, 5036); (43901, 5037); (43902, 5038); (43903, 5039); (43904, 5040);
   (43905, 5041); (43906, 5042); (43907, 5043); (43908, 5044); (43909, 5045); (43910, 5046);
   (43911, 5047); (43912, 5048); (43913, 5049); (43914, 5050); (43915, 5051); (43916, 5052);
   (43917, 5053); (43918, 5054); (43919, 5055); (43920, 5056); (43921, 5057); (43922, 5058);
   (43923, 5059); (43924, 5060); (43925, 5061); (43926, 5062); (43927, 5063); (43928, 5064);
   (43929, 5065); (43930, 5066); (43931, 5067); (43932, 5068); (43933, 5069); (43934, 5070);
   (43935, 5071); (43936, 5072); (43937, 5073); (43938, 5074); (43939, 5075); (43940, 5076);
   (43941, 5077); (43942, 5078); (43943, 5079); (43944, 5080); (43945, 5081); (43946, 5082);
   (43947, 5083); (43948, 5084); (43949, 5085); (43950, 5086); (43951, 5087); (43952, 5088);
   (43953, 5089); (43954, 5090); (43955, 5091); (43956, 5092); (43957, 5093); (43958, 5094);
   (43959, 5095); (43960, 5096); (43961, 5097); (43962, 5098); (43963, 5099); (43964, 5100);
   (43965, 5101); (43966, 5102); (43967, 5103); (65345, 65313); (65346, 65314); (65347, 65315);
   (65348, 65316); (65349, 65317); (65350, 65318); (65351, 65319); (65352, 65320); (65353, 65321);
   (65354, 65322); (65355, 65323); (65356, 65324); (65357, 65325); (65358, 65326); (65359, 65327);
   (65360, 65328); (65361, 65329); (65362, 65330); (65363, 65331); (65364, 65332); (65365, 65333);
   (65366, 65334); (65367, 65335); (65368, 65336); (65369, 65337); (65370, 65338); (66600, 66560);
   (66601, 66561); (66602, 66562); (66603, 66563); (66604, 66564); (66605, 66565); (66606, 66566);
   (66607, 66567); (66608, 66568); (66609, 66569); (66610, 66570); (66611, 66571); (66612, 66572);
   (66613, 66573); (66614, 66574); (66615, 66575); (66616, 66576); (66617, 66577); (66618, 66578);
   (66619, 66579); (66620, 66580); (66621, 66581); (66622, 66582); (66623, 66583); (66624, 66584);
   (66625, 66585); (66626, 66586); (66627, 66587); (66628, 66588); (66629, 66589); (66630, 66590);
   (66631, 66591); (66632, 66592); (66633, 66593); (66634, 66594); (66635, 66595); (66636, 66596);
   (66637, 66597); (66638, 66598); (66639, 66599); (66776, 66736); (66777, 66737); (66778, 66738);
   (66779, 66739); (66780, 66740); (66781, 66741); (66782, 66742); (66783, 66743); (66784, 66744);
   (66785, 66745); (66786, 66746); (66787, 66747); (66788, 66748); (66789, 66749); (66790, 66750);
   (66791, 66751); (66792, 66752); (66793, 66753); (66794, 66754); (66795, 66755); (66796, 66756);
   (66797, 66757); (66798, 66758); (66799, 66759); (66800, 66760); (66801, 66761); (66802, 66762);
   (66803, 66763); (66804, 66764); (66805, 66765); (66806, 66766); (66807, 66767); (66808, 66768);
   (66809, 66769); (66810, 66770); (66811, 66771); (66967, 66928); (66968, 66929); (66969, 66930);
   (66970, 66931); (66971, 66932); (66972, 66933); (66973, 66934); (66974, 66935); (66975, 66936);
   (66976, 66937); (66977, 66938); (66979, 66940); (66980, 66941); (66981, 66942); (66982, 66943);
   (66983, 66944); (66984, 66945); (66985, 66946); (66986, 66947); (66987, 66948); (66988, 66949);
   (66989, 66950); (66990, 66951); (66991, 66952); (66992, 66953); (66993, 66954); (66995, 66956);
   (66996, 66957); (66997, 66958); (66998, 66959); (66999, 66960); (67000, 66961); (67001, 66962);
   (67003, 66964); (67004, 66965); (68800, 68736); (68801, 68737); (68802, 68738); (68803, 68739);
   (68804, 68740); (68805, 68741); (68806, 68742); (68807, 68743); (68808, 68744); (68809, 68745);
   (68810, 68746); (68811, 68747); (68812, 68748); (68813, 68749); (68814, 68750); (68815, 68751);
   (68816, 68752); (68817, 68753); (68818, 68754); (68819, 68755); (68820, 68756); (68821, 68757);
   (68822, 68758); (68823, 68759); (68824, 68760); (68825, 68761); (68826, 68762); (68827, 68763);
   (68828, 68764); (68829, 68765); (68830, 68766); (68831, 68767); (68832, 68768); (68833, 68769);
   (68834, 68770); (68835, 68771); (68836, 68772); (68837, 68773); (68838, 68774); (68839, 68775);
   (68840, 68776); (68841, 68777); (68842, 68778); (68843, 68779); (68844, 68780); (68845, 68781);
   (68846, 68782); (68847, 68783); (68848, 68784); (68849, 68785); (68850, 68786); (71872, 71840);
   (71873, 71841); (71874, 71842); (71875, 71843); (71876, 71844); (71877, 71845); (71878, 71846);
   (71879, 71847); (71880, 71848); (71881, 71849); (71882, 71850); (71883, 71851); (71884, 71852);
   (71885, 71853); (71886, 71854); (71887, 71855); (71888, 71856); (71889, 71857); (71890, 71858);
   (71891, 71859); (71892, 71860); (71893, 71861); (71894, 71862); (71895, 71863); (71896, 71864);
   (71897, 71865); (71898, 71866); (71899, 71867); (71900, 71868); (71901, 71869); (71902, 71870);
   (71903, 71871); (93792, 93760); (93793, 93761); (93794, 93762); (93795, 93763); (93796, 93764);
   (93797, 93765); (93798, 93766); (93799, 93767); (93800, 93768); (93801, 93769); (93802, 93770);
   (93803, 93771); (93804, 93772); (93805, 93773); (93806, 93774); (93807, 93775); (93808, 93776);
   (93809, 93777); (93810, 93778); (93811, 93779); (93812, 93780); (93813, 93781); (93814, 93782);
   (93815, 93783); (93816, 93784); (93817, 93785); (93818, 93786); (93819, 93787); (93820, 93788);
   (93821, 93789); (93822, 93790); (93823, 93791); (125218, 125184); (125219, 125185); (125220, 125186);
   (125221, 125187); (125222, 125188); (125223, 125189); (125224, 125190); (125225, 125191); (125226, 125192);
   (125227, 125193); (125228, 125194); (125229, 125195); (125230, 125196); (125231, 125197); (125232, 125198);
   (125233, 125199); (125234, 125200); (125235, 125201); (125236, 125202); (125237, 125203); (125238, 125204);
   (125239, 125205); (125240, 125206); (125241, 125207); (125242, 125208); (125243, 125209); (125244, 125210);
   (125245, 125211); (125246, 125212); (125247, 125213); (125248, 125214); (125249, 125215); (125250, 125216);
   (125251, 125217)
  ]%N.

(** Upper-case mappings to several code points (SpecialCasing). *)
Definition special_uppercase : list (N * list N) :=
  [
   (223, [83; 83]); (329, [700; 78]); (496, [74; 780]); (912, [921; 776; 769]);
   (944, [933; 776; 769]); (1415, [1333; 1362]); (7830, [72; 817]); (7831, [84; 776]);
   (7832, [87; 778]); (7833, [89; 778]); (7834, [65; 702]); (8016, [933; 787]);
   (8018, [933; 787; 768]); (8020, [933; 787; 769]); (8022, [933; 787; 834]); (8064, [7944; 921]);
   (8065, [7945; 921]); (8066, [7946; 921]); (8067, [7947; 921]); (8068, [7948; 921]);
   (8069, [7949; 921]); (8070, [7950; 921]); (8071, [7951; 921]); (8072, [7944; 921]);
   (8073, [7945; 921]); (8074, [7946; 921]); (8075, [7947; 921]); (8076, [7948; 921]);
   (8077, [7949; 921]); (8078, [7950; 921]); (8079, [7951; 921]); (8080, [7976; 921]);
   (8081, [7977; 921]); (8082, [7978; 921]); (8083, [7979; 921]); (8084, [7980; 921]);
   (8085, [7981; 921]); (8086, [7982; 921]); (8087, [7983; 921]); (8088, [7976; 921]);
   (8089, [7977; 921]); (8090, [7978; 921]); (8091, [7979; 921]); (8092, [7980; 921]);
   (8093, [7981; 921]); (8094, [7982; 921]); (8095, [7983; 921]); (8096, [8040; 921]);
   (8097, [8041; 921]); (8098, [8042; 921]); (8099, [8043; 921]); (8100, [8044; 921]);
   (8101, [8045; 921]); (8102, [8046; 921]); (8103, [8047; 921]); (8104, [8040; 921]);
   (8105, [8041; 921]); (8106, [8042; 921]); (8107, [8043; 921]); (8108, [8044; 921]);
   (8109, [8045; 921]); (8110, [8046; 921]); (8111, [8047; 921]); (8114, [8122; 921]);
   (8115, [913; 921]); (8116, [902; 921]); (8118, [913; 834]); (8119, [913; 834; 921]);
   (8124, [913; 921]); (8130, [8138; 921]); (8131, [919; 921]); (8132, [905; 921]);
   (8134, [919; 834]); (8135, [919; 834; 921]); (8140, [919; 921]); (8146, [921; 776; 768]);
   (8147, [921; 776; 769]); (8150, [921; 834]); (8151, [921; 776; 834]); (8162, [933; 776; 768]);
   (8163, [933; 776; 769]); (8164, [929; 787]); (8166, [933; 834]); (8167, [933; 776; 834]);
   (8178, [8186; 921]); (8179, [937; 921]); (8180, [911; 921]); (8182, [937; 834]);
   (8183, [937; 834; 921]); (8188, [937; 921]); (64256, [70; 70]); (64257, [70; 73]);
   (64258, [70; 76]); (64259, [70; 70; 73]); (64260, [70; 70; 76]); (64261, [83; 84]);
   (64262, [83; 84]); (64275, [1348; 1350]); (64276, [1348; 1333]); (64277, [1348; 1339]);
   (64278, [1358; 1350]); (64279, [1348; 1341])
  ]%N.

Definition in_range (c : N) (r : N * N) : bool :=
  ((fst r <=? c) && (c <=? snd r))%N.

Definition in_run (c : N) (start : N) : bool := in_range c (start, start + 9)%N.

(** [Py_UNICODE_TODECIMAL]: the value of a decimal digit. *)
Definition todecimal (c : N) : option Z :=
  match List.find (in_run c) decimal_runs with
  | Some start => Some (Z.of_N (c - start))
  | None => None
  end.

(** [Py_UNICODE_ISDECIMAL]. *)
Definition isdecimal (c : N) : bool :=
  match todecimal c with Some _ => true | None => false end.

(** [Py_UNICODE_ISDIGIT]: decimal digits and the characters of numeric
    type Digit (superscripts, circled digits, ...). *)
Definition isdigit (c : N) : bool :=
  isdecimal c || existsb (in_range c) other_digit_ranges.

(** [Py_UNICODE_ISSPACE]. *)
Definition isspace (c : N) : bool := existsb (N.eqb c) whitespace.

Fixpoint assoc {A : Type} (c : N) (table : list (N * A)) : option A :=
  match table with
  | [] => None
  | (k, v) :: rest => if (k =? c)%N then Some v else assoc c rest
  end.

(** [_PyUnicode_ToUpperFull]: the full upper-case mapping of one code
    point, which may be several code points long. *)
Definition toupper (c : N) : list N :=
  match assoc c special_uppercase with
  | Some cs => cs
  | None =>
      match assoc c simple_uppercase with
      | Some u => [u]
      | None => [c]
      end
  end.

(** Every code point an upper-case mapping can produce. *)
Definition uppercase_images : list N :=
  List.concat (List.map snd special_uppercase) ++ List.map snd simple_uppercase.

(** What [clean_rut] needs of such a code point: upper-casing fixes it,
    it is not white space, and it is neither a dot nor a dash. *)
Definition settled (d : N) : bool :=
  bool_decide (toupper d = [d]) && negb (isspace d)
  && negb ((d =? 46) || (d =? 45))%N.

End Unicode.

(* ===================================================================== *)
(** * Python strings, exceptions and the built-ins the validator calls    *)
(* ===================================================================== *)

Module Py.

(** A [str]: its code points, in order. *)
Abbreviation pystr := (list N).

(** An ASCII literal as a [str]. *)
Definition lit (s : string) : pystr :=
  List.map N_of_ascii (list_ascii_of_string s).

(** The exceptions that occur: the two of [validators.py] and the
    database's answer to a violated constraint. *)
Inductive exn : Type :=
| ValidationError (detail : pystr)
| ValueError
| IntegrityError.

Inductive outcome (A : Type) : Type :=
| Return (a : A)
| Raise (e : exn).
Arguments Return {A} a.
Arguments Raise {A} e.

(** Sequencing: an exception raised by the first call propagates. *)
#[global] Instance outcome_bind : MBind outcome := fun A B k m =>
  match m with
  | Return a => k a
  | Raise e => Raise e
  end.

(** [int(c)] for a one-character string [c]: the digit value of a decimal
    digit, [ValueError] for every other character. *)
Definition int (c : N) : outcome Z :=
  match Unicode.todecimal c with
  | Some d => Return d
  | None => Raise ValueError
  end.

Fixpoint uint_codes (u : Decimal.uint) : pystr :=
  match u with
  | Decimal.Nil => []
  | Decimal.D0 r => 48%N :: uint_codes r
  | Decimal.D1 r => 49%N :: uint_codes r
  | Decimal.D2 r => 50%N :: uint_codes r
  | Decimal.D3 r => 51%N :: uint_codes r
  | Decimal.D4 r => 52%N :: uint_codes r
  | Decimal.D5 r => 53%N :: uint_codes r
  | Decimal.D6 r => 54%N :: uint_codes r
  | Decimal.D7 r => 55%N :: uint_codes r
  | Decimal.D8 r => 56%N :: uint_codes r
  | Decimal.D9 r => 57%N :: uint_codes r
  end.

(** [str(n)] for an [int]. *)
Definition str (n : Z) : pystr :=
  match Z.to_int n with
  | Decimal.Pos u => uint_codes u
  | Decimal.Neg u => 45%N :: uint_codes u
  end.

(** [s.isdigit()]: at least one character, and all of them digits. *)
Definition isdigit (s : pystr) : bool :=
  match s with
  | [] => false
  | _ => forallb Unicode.isdigit s
  end.

(** [s.isdecimal()]. *)
Definition isdecimal (s : pystr) : bool :=
  match s with
  | [] => false
  | _ => forallb Unicode.isdecimal s
  end.

Fixpoint lstrip (s : pystr) : pystr :=
  match s with
  | c :: rest => if Unicode.isspace c then lstrip rest else s
  | [] => []
  end.

Definition rstrip (s : pystr) : pystr := rev (lstrip (rev s)).

(** [s.strip()]. *)
Definition strip (s : pystr) : pystr := rstrip (lstrip s).

(** A string [lstrip] has nothing to remove from. *)
Definition starts_clean (s : pystr) : Prop :=
  match s with
  | [] => True
  | c :: _ => Unicode.isspace c = false
  end.

(** [s.upper()]. *)
Definition upper (s : pystr) : pystr := flat_map Unicode.toupper s.

(** [s.zfill(width)]: zeros go after a leading sign. *)
Definition zfill (width : nat) (s : pystr) : pystr :=
  let fill := (width - length s)%nat in
  match fill, s with
  | O, _ => s
  | _, c :: rest =>
      if ((c =? 43) || (c =? 45))%N
      then c :: repeat 48%N fill ++ rest
      else repeat 48%N fill ++ s
  | _, [] => repeat 48%N fill
  end.

(** [re.sub(r'[.-]', '', s)]. *)
Definition re_sub_dot_dash (s : pystr) : pystr :=
  List.filter (fun c => negb ((c =? 46) || (c =? 45))%N) s.

End Py.

(* ===================================================================== *)
(** * core_api/validators.py                                              *)
(* ===================================================================== *)

Module validators.
Import Py.

(** [clean_rut].  The argument is a [str] by its type, so the
    [isinstance] guard never fires. *)
Definition clean_rut (rut : pystr) : pystr :=
  let rut_limpio := upper (strip (re_sub_dot_dash rut)) in
  rut_limpio.

(** The [for] loop of [calculate_dv].  [map(int, ...)] is lazy, so each
    [int] conversion runs here, one per iteration, after the [try] block
    has been left. *)
Fixpoint dv_loop (reversed_digits : pystr) (factor sum_digits : Z) : outcome Z :=
  match reversed_digits with
  | [] => Return sum_digits
  | c :: rest =>
      digit ← int c;
      let sum_digits := sum_digits + digit * factor in
      let factor := factor + 1 in
      let factor := if 7 <? factor then 2 else factor in
      dv_loop rest factor sum_digits
  end.

(** [calculate_dv].  Nothing inside the [try] block can raise on a [str]
    ([zfill], the slice and the construction of the [map] object), so the
    [except ValueError] branch is never taken. *)
Definition calculate_dv (rut_body : pystr) : outcome pystr :=
  let rut_body := zfill 8 rut_body in
  let reversed_digits := rev rut_body in
  sum_digits ← dv_loop reversed_digits 2 0;
  let remainder := sum_digits mod 11 in
  let dv := 11 - remainder in
  if dv =? 10 then Return (lit "K")
  else if dv =? 11 then Return (lit "0")
  else Return (str dv).

Definition msg_too_short : pystr :=
  lit "El RUT no es v" ++ [225%N] ++ lit "lido: demasiado corto.".

Definition msg_body_not_numeric : pystr :=
  lit "El cuerpo del RUT debe contener solo n" ++ [250%N] ++ lit "meros.".

(** The f-string of the final [raise]. *)
Definition msg_wrong_dv (value dv_calculado : pystr) : pystr :=
  lit "El RUT ingresado ('" ++ value ++ lit "') es inv" ++ [225%N]
  ++ lit "lido. El d" ++ [237%N] ++ lit "gito verificador correcto es '"
  ++ dv_calculado ++ lit "'.".

(** [validate_chilean_rut]. *)
Definition validate_chilean_rut (value : pystr) : outcome pystr :=
  let rut_limpio := clean_rut value in
  if (length rut_limpio <? 2)%nat
  then Raise (ValidationError msg_too_short)
  else
    let dv_ingresado := [List.last rut_limpio 0%N] in
    let rut_body := removelast rut_limpio in
    if negb (isdigit rut_body)
    then Raise (ValidationError msg_body_not_numeric)
    else
      dv_calculado ← calculate_dv rut_body;
      if decide (dv_calculado = dv_ingresado)
      then Return value
      else Raise (ValidationError (msg_wrong_dv value dv_calculado)).

End validators.


(* ===================================================================== *)
(** * core_api/models.py                                                  *)
(* ===================================================================== *)

Module models.
Import Py.

(** Primary keys are integers; money is counted in hundredths. *)
Abbreviation pk := Z.
Abbreviation decimal := Z.

Inductive OrderStatus : Type := PENDIENTE | ENVIADO | ENTREGADO | ANULADA.

Inductive PaymentMethods : Type := EFECTIVO | TARJETA | TRANSFERENCIA | OTRO.

(** The stored value of a status choice. *)
Definition OrderStatus_value (s : OrderStatus) : string :=
  match s with
  | PENDIENTE => "PENDIENTE"
  | ENVIADO => "ENVIADO"
  | ENTREGADO => "ENTREGADO"
  | ANULADA => "ANULADA"
  end.

(** [MinValueValidator(limit)]: does [value] pass? *)
Definition MinValueValidator (limit value : Z) : bool := limit <=? value.

Record Product : Type := {
  product_company : pk;
  sku : string;
  product_name : string;
  price : decimal;
  cost : decimal;
  category : string;
  product_is_active : bool
}.

Record Inventory : Type := {
  inventory_branch : pk;
  inventory_product : pk;
  stock : Z;
  reorder_point : Z
}.

Definition Inventory_reorder_point_default : Z := 5.

Record PurchaseItem : Type := {
  purchase : pk;
  purchase_item_product : pk;
  purchase_item_quantity : Z;
  cost_at_purchase : decimal
}.

Record SaleItem : Type := {
  sale : pk;
  sale_item_product : pk;
  sale_item_quantity : Z;
  price_at_sale : decimal
}.

Record OrderItem : Type := {
  order : pk;
  order_item_product : pk;
  order_item_quantity : Z;
  price_at_order : decimal
}.

Record CartItem : Type := {
  user : option pk;
  session_key : option string;
  cart_item_product : pk;
  quantity : Z
}.

(** The columns of the three document tables, in declaration order
    (the implicit [id] first). *)
Definition Purchase_fields : list string :=
  ["id"; "company"; "supplier"; "branch"; "user"; "total"; "purchase_date"]%string.

Definition Sale_fields : list string :=
  ["id"; "company"; "branch"; "user"; "total"; "payment_method"; "created_at"]%string.

Definition Order_fields : list string :=
  ["id"; "company"; "client_user"; "client_name"; "client_email"; "status";
   "total"; "created_at"]%string.

(** Request payloads and attribute values. *)
#[warnings="-register-all"]
Inductive pyval : Type :=
| VNone
| VInt (n : Z)
| VStr (s : string)
| VList (items : list pyval)
| VDict (items : list (string * pyval)).

Definition OrderStatus_of_value (v : pyval) : option OrderStatus :=
  match v with
  | VStr s =>
      List.find (fun c => String.eqb (OrderStatus_value c) s)
                [PENDIENTE; ENVIADO; ENTREGADO; ANULADA]
  | _ => None
  end.

(** An [Order] instance: the value of each attribute the class declares
    and a request or a view can set ([id] and [created_at] are set by
    the database and by [auto_now_add]).  An attribute holds whatever it
    was given; choices are not enforced when a row is saved. *)
Record Order : Type := {
  order_company : pyval;
  client_user : pyval;
  client_name : pyval;
  client_email : pyval;
  status : pyval;
  order_total : pyval
}.

Definition Order_columns : list string :=
  ["company"; "client_user"; "client_name"; "client_email"; "status"; "total"]%string.

(** The columns declared without [null=True]. *)
Definition Order_not_null : list string :=
  ["company"; "client_name"; "client_email"; "status"; "total"]%string.

(** The value of a column that the keywords do not name: the [default=]
    of [status], the empty string for the two other character columns,
    and [None] for the rest. *)
Definition Order_default (column : string) : pyval :=
  if String.eqb column "status" then VStr (OrderStatus_value PENDIENTE)
  else if String.eqb column "client_name" || String.eqb column "client_email"
       then VStr ""
       else VNone.

Definition Order_attribute (kwargs : gmap string pyval) (column : string) : pyval :=
  default (Order_default column) (kwargs !! column).

Definition is_none (v : pyval) : bool :=
  match v with VNone => true | _ => false end.

(** [Order.objects.create] with keyword arguments: the instance takes
    the keywords and the defaults, and is inserted.  The INSERT fails,
    which [None] stands for, when a column that is not nullable holds
    [None] or when the database cannot take a value for its column;
    [adapts column v] says whether it can, which is the database
    adapter's decision. *)
Definition Order_create (adapts : string → pyval → bool) (kwargs : gmap string pyval)
  : option Order :=
  let attribute := Order_attribute kwargs in
  if forallb (fun c => negb (is_none (attribute c))) Order_not_null
     && forallb (fun c => is_none (attribute c) || adapts c (attribute c)) Order_columns
  then Some {| order_company := attribute "company"%string;
               client_user := attribute "client_user"%string;
               client_name := attribute "client_name"%string;
               client_email := attribute "client_email"%string;
               status := attribute "status"%string;
               order_total := attribute "total"%string |}
  else None.

(** The two [unique_together] pairs of [CartItem].  A database compares
    NULL as different from every value, so a pair with a NULL member
    never collides. *)
Definition same_user_product (a b : CartItem) : bool :=
  match user a, user b with
  | Some u, Some v => (u =? v) && (cart_item_product a =? cart_item_product b)
  | _, _ => false
  end.

Definition same_session_product (a b : CartItem) : bool :=
  match session_key a, session_key b with
  | Some k, Some l => String.eqb k l && (cart_item_product a =? cart_item_product b)
  | _, _ => false
  end.

Definition CartItem_collides (a b : CartItem) : bool :=
  same_user_product a b || same_session_product a b.

(** The [cart item] table: rows by primary key. *)
Abbreviation CartItem_table := (gmap pk CartItem).

(** Does [row], stored under [key], respect [unique_together] against
    every other row? *)
Definition CartItem_unique (table : gmap pk CartItem) (key : pk) (row : CartItem) : bool :=
  forallb (fun kr => (fst kr =? key) || negb (CartItem_collides (snd kr) row))
          (map_to_list table).

(** [row.save()] under primary key [key]: INSERT or UPDATE, refused by
    the database when a uniqueness constraint is violated. *)
Definition CartItem_save (table : gmap pk CartItem) (key : pk) (row : CartItem)
  : outcome (gmap pk CartItem) :=
  if CartItem_unique table key row
  then Return (<[key := row]> table)
  else Raise IntegrityError.

(** [row.delete()]. *)
Definition CartItem_delete (table : gmap pk CartItem) (key : pk) : gmap pk CartItem :=
  delete key table.

(** The remaining choices, with their stored values. *)
Inductive UserRoles : Type :=
| SUPER_ADMIN | ADMIN_CLIENTE | GERENTE | VENDEDOR | CLIENTE_FINAL.

Definition UserRoles_value (r : UserRoles) : string :=
  match r with
  | SUPER_ADMIN => "SUPER_ADMIN"
  | ADMIN_CLIENTE => "ADMIN_CLIENTE"
  | GERENTE => "GERENTE"
  | VENDEDOR => "VENDEDOR"
  | CLIENTE_FINAL => "CLIENTE_FINAL"
  end.

Inductive SubscriptionPlans : Type := BASICO | ESTANDAR | PREMIUM.

Definition SubscriptionPlans_value (p : SubscriptionPlans) : string :=
  match p with
  | BASICO => "BASICO"
  | ESTANDAR => "ESTANDAR"
  | PREMIUM => "PREMIUM"
  end.

Definition PaymentMethods_value (m : PaymentMethods) : string :=
  match m with
  | EFECTIVO => "EFECTIVO"
  | TARJETA => "TARJETA"
  | TRANSFERENCIA => "TRANSFERENCIA"
  | OTRO => "OTRO"
  end.

(** [max_length] of the four columns that store a choice: [User.role],
    [Subscription.plan_name], [Order.status], [Sale.payment_method]. *)
Definition role_max_length : nat := 20.
Definition plan_name_max_length : nat := 20.
Definition status_max_length : nat := 20.
Definition payment_method_max_length : nat := 20.

(** [User]: the columns the class adds to the framework's user.  [role]
    is a character column, so it holds a string. *)
Record User : Type := {
  user_company : option pk;
  user_rut : pystr;
  role : string;
  user_is_active : bool
}.

Definition User_role_default : string := UserRoles_value VENDEDOR.

Definition is_super_admin (self : User) : bool :=
  String.eqb (role self) (UserRoles_value SUPER_ADMIN).

Definition is_admin_cliente (self : User) : bool :=
  String.eqb (role self) (UserRoles_value ADMIN_CLIENTE).

Definition is_gerente (self : User) : bool :=
  String.eqb (role self) (UserRoles_value GERENTE).

(** [Subscription]; dates are day numbers. *)
Record Subscription : Type := {
  subscription_company : pk;
  plan_name : string;
  start_date : Z;
  end_date : Z;
  active : bool
}.

(** Python's truth value of a request value. *)
Definition truthy (v : pyval) : bool :=
  match v with
  | VNone => false
  | VInt n => negb (n =? 0)
  | VStr s => negb (String.eqb s "")
  | VList items => negb (Nat.eqb (length items) 0)
  | VDict items => negb (Nat.eqb (length items) 0)
  end.

End models.

(* ===================================================================== *)
(** * core_api/serializers.py                                             *)
(* ===================================================================== *)

Module serializers.
Import Py models.

(** An aware [datetime]: an instant, in microseconds since the epoch,
    and the UTC offset of its time zone, in microseconds. *)
Record datetime : Type := {
  instant : Z;
  utcoffset : Z
}.

Definition microseconds_per_day : Z := 86400000000.

(** [dt.date()]: the calendar day, in the time zone of [dt]. *)
Definition date (dt : datetime) : Z :=
  (instant dt + utcoffset dt) / microseconds_per_day.

(** [a > b] on aware datetimes compares the instants. *)
Definition datetime_gt (a b : datetime) : bool := instant b <? instant a.

(** What the framework does with a serializer's [Meta]: a field accepts
    input unless it is read-only. *)
Definition writable (fields read_only : list string) : list string :=
  List.filter (fun f => negb (existsb (String.eqb f) read_only)) fields.

Definition msg_required : pystr := lit "This field is required.".
(** The key is quoted in the message (code point 34 is the quotation
    mark). *)
Definition msg_invalid_pk (key : pk) : pystr :=
  lit "Invalid pk " ++ [34%N] ++ str key ++ [34%N] ++ lit " - object does not exist.".
Definition msg_min_value_1 : pystr :=
  lit "Ensure this value is greater than or equal to 1.".
Definition msg_max_value (limit : Z) : pystr :=
  lit "Ensure this value is less than or equal to " ++ str limit ++ lit ".".

(** The serializer field the framework builds for an integer column
    declared with [MinValueValidator(1)]: the value must not exceed
    [integer_max], the upper end of the database's integer range
    (9223372036854775807 on SQLite, 2147483647 on PostgreSQL), and must
    be at least 1. *)
Definition quantity_field (integer_max value : Z) : outcome Z :=
  if integer_max <? value
  then Raise (ValidationError (msg_max_value integer_max))
  else if negb (MinValueValidator 1 value)
       then Raise (ValidationError msg_min_value_1)
       else Return value.

(** The serializer field of a foreign key to a product: the key must be
    that of a row. *)
Definition product_field (product_table : gmap pk Product) (key : pk) : outcome pk :=
  match product_table !! key with
  | Some _ => Return key
  | None => Raise (ValidationError (msg_invalid_pk key))
  end.

(** A line of a document as it arrives in a request: the three writable
    fields of an item serializer, each possibly missing.  [unit_value]
    is the field [cost_at_purchase], [price_at_sale] or
    [price_at_order]. *)
Record item_data : Type := {
  data_product : option pk;
  data_quantity : option Z;
  unit_value : option decimal
}.

(** [DecimalField(max_digits=10, decimal_places=2)], in hundredths. *)
Definition fits_max_digits (v : decimal) : bool := Z.abs v <? 10 ^ 10.

(** The field-level validation the three item serializers share: the
    product must exist, the quantity must lie between 1 and
    [integer_max], and the unit value, declared [required], must be
    present and have at most ten digits.  The first failing field
    raises.  [digits_message v] is the framework's message for a unit
    value with too many digits; which of its messages that is depends
    on how the number was written in the request. *)
Definition item_run_validation (integer_max : Z) (digits_message : decimal → pystr)
    (product_table : gmap pk Product) (data : item_data)
  : outcome (pk * Z * decimal) :=
  match data_product data with
  | None => Raise (ValidationError msg_required)
  | Some key =>
      p ← product_field product_table key;
      match data_quantity data with
      | None => Raise (ValidationError msg_required)
      | Some value =>
          q ← quantity_field integer_max value;
          match unit_value data with
          | None => Raise (ValidationError msg_required)
          | Some v =>
              if fits_max_digits v
              then Return (p, q, v)
              else Raise (ValidationError (digits_message v))
          end
      end
  end.

Module PurchaseItemSerializer.
Definition fields : list string :=
  ["id"; "product"; "product_name"; "quantity"; "cost_at_purchase"]%string.

(** The validated line, attached to the purchase [parent]. *)
Definition run_validation (integer_max : Z) (digits_message : decimal → pystr)
    (product_table : gmap pk Product) (parent : pk) (data : item_data)
  : outcome PurchaseItem :=
  '(p, q, v) ← item_run_validation integer_max digits_message product_table data;
  Return {| purchase := parent; purchase_item_product := p;
            purchase_item_quantity := q; cost_at_purchase := v |}.
End PurchaseItemSerializer.

Module PurchaseSerializer.
Definition fields : list string :=
  ["id"; "company"; "supplier"; "supplier_name"; "branch"; "branch_name"; "user";
   "user_username"; "total"; "purchase_date"; "items"]%string.

Definition read_only_fields : list string :=
  ["company"; "total"; "user_username"]%string.

Definition msg_future : pystr := lit "La fecha de compra no puede ser futura.".

(** [validate_purchase_date]; [now] is the value of [timezone.now()]. *)
Definition validate_purchase_date (now value : datetime) : outcome datetime :=
  if date now <? date value
  then Raise (ValidationError msg_future)
  else Return value.
End PurchaseSerializer.

Module SaleItemSerializer.
Definition fields : list string :=
  ["id"; "product"; "product_name"; "quantity"; "price_at_sale"]%string.

Definition run_validation (integer_max : Z) (digits_message : decimal → pystr)
    (product_table : gmap pk Product) (parent : pk) (data : item_data)
  : outcome SaleItem :=
  '(p, q, v) ← item_run_validation integer_max digits_message product_table data;
  Return {| sale := parent; sale_item_product := p;
            sale_item_quantity := q; price_at_sale := v |}.
End SaleItemSerializer.

Module SaleSerializer.
Definition fields : list string :=
  ["id"; "company"; "branch"; "branch_name"; "user"; "user_username"; "total";
   "payment_method"; "created_at"; "items"]%string.

Definition read_only_fields : list string :=
  ["company"; "total"; "user_username"]%string.

Definition msg_future : pystr :=
  lit "La fecha de la venta POS no puede ser futura.".

(** [validate_created_at]; [now] is the value of [timezone.now()]. *)
Definition validate_created_at (now value : datetime) : outcome datetime :=
  if datetime_gt value now
  then Raise (ValidationError msg_future)
  else Return value.
End SaleSerializer.

Module OrderItemSerializer.
Definition fields : list string :=
  ["id"; "product"; "product_name"; "quantity"; "price_at_order"]%string.

Definition run_validation (integer_max : Z) (digits_message : decimal → pystr)
    (product_table : gmap pk Product) (parent : pk) (data : item_data)
  : outcome OrderItem :=
  '(p, q, v) ← item_run_validation integer_max digits_message product_table data;
  Return {| order := parent; order_item_product := p;
            order_item_quantity := q; price_at_order := v |}.
End OrderItemSerializer.

Module OrderSerializer.
Definition fields : list string :=
  ["id"; "company"; "client_user"; "client_username"; "client_name"; "client_email";
   "status"; "total"; "created_at"; "items"]%string.

(** [Meta.read_only_fields], then the fields declared with
    [read_only=True] and the primary key, which is never writable. *)
Definition read_only_fields : list string :=
  ["company"; "total"; "created_at"; "status"; "items"]%string.

Definition declared_read_only : list string :=
  ["items"; "client_username"; "id"]%string.

Definition writable_fields : list string :=
  writable fields (read_only_fields ++ declared_read_only).

(** The writable fields that must be present ([client_user] is
    [required: False]). *)
Definition required_fields : list string := ["client_name"; "client_email"]%string.

(** The fields [names], validated one after the other.  A field found
    in the request is validated by the framework's field of that name:
    [run_field f v] is its answer for the value [v], which is [v]
    normalised (a character field trims it) or an error (a blank or
    malformed value, an unknown key).  A field that is missing is an
    error when it is required and is left out otherwise.  The first
    failing field raises. *)
Fixpoint validate_fields (run_field : string → pyval → outcome pyval)
    (data : gmap string pyval) (names : list string) : outcome (gmap string pyval) :=
  match names with
  | [] => Return ∅
  | f :: rest =>
      match data !! f with
      | None =>
          if existsb (String.eqb f) required_fields
          then Raise (ValidationError msg_required)
          else validate_fields run_field data rest
      | Some v =>
          v' ← run_field f v;
          validated ← validate_fields run_field data rest;
          Return (<[f := v']> validated)
      end
  end.

(** [to_internal_value]: the validated data holds the validated values
    of the writable fields found in the request and nothing else. *)
Definition to_internal_value (run_field : string → pyval → outcome pyval)
    (data : gmap string pyval) : outcome (gmap string pyval) :=
  validate_fields run_field data writable_fields.

(** [serializer.save] with the view's keyword arguments, which take
    precedence over the validated data, followed by the model's
    [create]. *)
Definition save (adapts : string → pyval → bool)
    (validated_data kwargs : gmap string pyval) : option Order :=
  Order_create adapts (kwargs ∪ validated_data).
End OrderSerializer.

Module CartItemSerializer.
Definition fields : list string :=
  ["id"; "user"; "session_key"; "product"; "product_name"; "quantity";
   "current_price"; "added_at"]%string.

Definition read_only_fields : list string :=
  ["user"; "session_key"; "added_at"; "current_price"]%string.

Definition msg_quantity : pystr := lit "La cantidad debe ser al menos 1.".

(** [validate_quantity]. *)
Definition validate_quantity (value : Z) : outcome Z :=
  if value <? 1
  then Raise (ValidationError msg_quantity)
  else Return value.

(** A cart operation through the serializer.  The two writable fields
    are validated first, each by its own field and then, for the
    quantity, by [validate_quantity]; then the row is written under
    [key].  [user] and [session_key] are read-only, so it is the view
    that provides them. *)
Definition save (integer_max : Z) (product_table : gmap pk Product)
    (table : gmap pk CartItem) (key : pk) (owner : option pk)
    (session : option string) (product value : Z) : outcome (gmap pk CartItem) :=
  p ← product_field product_table product;
  q ← quantity_field integer_max value;
  q ← validate_quantity q;
  CartItem_save table key
    {| user := owner; session_key := session;
       cart_item_product := p; quantity := q |}.
End CartItemSerializer.

(** [InventorySerializer]: [stock] is writable and carries the model's
    [MinValueValidator(0)]. *)
Module InventorySerializer.
Definition msg_min_value_0 : pystr :=
  lit "Ensure this value is greater than or equal to 0.".

Definition validate_stock (value : Z) : outcome Z :=
  if MinValueValidator 0 value
  then Return value
  else Raise (ValidationError msg_min_value_0).
End InventorySerializer.

(** What a serializer hook answers: the validated value, a
    [ValidationError] whose detail is a dict with one key, or an
    exception it did not catch. *)
Inductive answer (A : Type) : Type :=
| Accepted (a : A)
| FieldError (field : string) (detail : pystr)
| Uncaught (e : exn).
Arguments Accepted {A} a.
Arguments FieldError {A} field detail.
Arguments Uncaught {A} e.

(** The three [validate_rut] hooks.  [exception_str detail] is what
    [str(e)] gives for a [ValidationError] raised with the message
    [detail]; the framework decides it.  The [except] clause names
    [ValidationError] only. *)
Module UserSerializer.
Definition validate_rut (exception_str : pystr → pystr) (value : pystr) : answer pystr :=
  match validators.validate_chilean_rut value with
  | Return v => Accepted v
  | Raise (ValidationError detail) => FieldError "rut" (exception_str detail)
  | Raise e => Uncaught e
  end.

(** [create].  [make_password] is the hash [set_password] stores, and
    [User_defaults] the defaults of the columns; the result is the
    attribute dictionary of the saved user. *)
Definition create (make_password : pyval → pyval) (User_defaults : gmap string pyval)
    (validated_data : gmap string pyval) : gmap string pyval :=
  let password := validated_data !! "password"%string in
  let validated_data := delete "password"%string validated_data in
  let user := validated_data ∪ User_defaults in
  match password with
  | Some p => if truthy p then <["password"%string := make_password p]> user else user
  | None => user
  end.

(** [update]: the inherited update assigns every validated attribute to
    the instance. *)
Definition update (make_password : pyval → pyval)
    (instance validated_data : gmap string pyval) : gmap string pyval :=
  let password := validated_data !! "password"%string in
  let validated_data := delete "password"%string validated_data in
  let user := validated_data ∪ instance in
  match password with
  | Some p => if truthy p then <["password"%string := make_password p]> user else user
  | None => user
  end.
End UserSerializer.

Module CompanySerializer.
Definition validate_rut (exception_str : pystr → pystr) (value : pystr) : answer pystr :=
  match validators.validate_chilean_rut value with
  | Return v => Accepted v
  | Raise (ValidationError detail) => FieldError "rut" (exception_str detail)
  | Raise e => Uncaught e
  end.
End CompanySerializer.

Module SupplierSerializer.
Definition validate_rut (exception_str : pystr → pystr) (value : pystr) : answer pystr :=
  match validators.validate_chilean_rut value with
  | Return v => Accepted v
  | Raise (ValidationError detail) => FieldError "rut" (exception_str detail)
  | Raise e => Uncaught e
  end.
End SupplierSerializer.

Module SubscriptionSerializer.
(** The validated attributes of a request; on a partial update a date
    may be missing. *)
Record attrs : Type := {
  attrs_company : option pk;
  attrs_plan_name : option string;
  attrs_start_date : option Z;
  attrs_end_date : option Z;
  attrs_active : option bool
}.

Definition msg_end_date : pystr :=
  lit "La fecha de fin debe ser posterior a la fecha de inicio.".

(** [validate]: [data.get] gives [None] for a missing date, and the
    comparison is made only when both dates are there. *)
Definition validate (data : attrs) : answer attrs :=
  match attrs_start_date data, attrs_end_date data with
  | Some start, Some end_ =>
      if end_ <=? start
      then FieldError "end_date" msg_end_date
      else Accepted data
  | _, _ => Accepted data
  end.

(** The inherited [update]: every validated attribute is assigned to the
    instance. *)
Definition update (instance : Subscription) (validated_data : attrs) : Subscription :=
  {| subscription_company :=
       default (subscription_company instance) (attrs_company validated_data);
     plan_name := default (plan_name instance) (attrs_plan_name validated_data);
     start_date := default (start_date instance) (attrs_start_date validated_data);
     end_date := default (end_date instance) (attrs_end_date validated_data);
     active := default (active instance) (attrs_active validated_data) |}.
End SubscriptionSerializer.

End serializers.

(* ===================================================================== *)
(** * The inventory ledger                                                *)
(* ===================================================================== *)

(** [models.py] declares the [Inventory] table and nothing that changes
    [stock]; the serializers leave it to code still to be written ("se
    debe implementar la logica de create/update ... y actualizar el
    stock").  The three ledger operations are therefore taken from
    section 4.2 of the specification, over the table of [models.py]:
    [unique_together = ('branch', 'product')] makes the pair the key. *)
Module InventoryLedger.
Import models.

Inductive result : Type :=
| Ok
| InsufficientStock (shortfall : Z)
| NotFound.

Definition set_stock (row : Inventory) (value : Z) : Inventory :=
  {| inventory_branch := inventory_branch row;
     inventory_product := inventory_product row;
     stock := value;
     reorder_point := reorder_point row |}.

(** Modelled from the spec: [reserveAndDecrement], absent from the
    source.  "Decrement must check current_stock >= qty and fail
    atomically (no partial effect) if not, signaling InsufficientStock
    with the shortfall amount." *)
Definition reserveAndDecrement (ledger : gmap (pk * pk) Inventory)
    (branch product : pk) (qty : Z) : gmap (pk * pk) Inventory * result :=
  match ledger !! (branch, product) with
  | None => (ledger, NotFound)
  | Some row =>
      if qty <=? stock row
      then (<[(branch, product) := set_stock row (stock row - qty)]> ledger, Ok)
      else (ledger, InsufficientStock (qty - stock row))
  end.

(** Modelled from the spec: [increment], absent from the source.
    "Creates the record with stock=qty if absent, for first-time
    receipt." *)
Definition increment (ledger : gmap (pk * pk) Inventory)
    (branch product : pk) (qty : Z) : gmap (pk * pk) Inventory * result :=
  match ledger !! (branch, product) with
  | None =>
      (<[(branch, product) :=
           {| inventory_branch := branch; inventory_product := product;
              stock := qty; reorder_point := Inventory_reorder_point_default |}]>
         ledger, Ok)
  | Some row =>
      (<[(branch, product) := set_stock row (stock row + qty)]> ledger, Ok)
  end.

(** Modelled from the spec: [restore], absent from the source.  It
    returns a cancelled order's quantity and always answers Ok; a record
    that does not exist yet starts from the default stock 0. *)
Definition restore (ledger : gmap (pk * pk) Inventory)
    (branch product : pk) (qty : Z) : gmap (pk * pk) Inventory * result :=
  increment ledger branch product qty.

(** Modelled from the spec: the three kinds of request a ledger
    receives. *)
Inductive operation : Type :=
| Increment (branch product : pk) (qty : Z)
| Decrement (branch product : pk) (qty : Z)
| Restore (branch product : pk) (qty : Z).

Definition qty_of (op : operation) : Z :=
  match op with
  | Increment _ _ q | Decrement _ _ q | Restore _ _ q => q
  end.

(** Modelled from the spec: one request applied to the ledger. *)
Definition apply (ledger : gmap (pk * pk) Inventory) (op : operation)
  : gmap (pk * pk) Inventory * result :=
  match op with
  | Increment b p q => increment ledger b p q
  | Decrement b p q => reserveAndDecrement ledger b p q
  | Restore b p q => restore ledger b p q
  end.

(** Modelled from the spec: a sequence of requests, applied in order; a
    refused request leaves the ledger as it was and the next one is
    served. *)
Definition run (ops : list operation) (ledger : gmap (pk * pk) Inventory)
  : gmap (pk * pk) Inventory :=
  fold_left (fun l op => fst (apply l op)) ops ledger.

(** The invariant: no record has a negative stock. *)
Definition stock_nonnegative (ledger : gmap (pk * pk) Inventory) : Prop :=
  ∀ key row, ledger !! key = Some row → 0 <= stock row.

End InventoryLedger.

(* ===================================================================== *)
(** * Cart operations                                                     *)
(* ===================================================================== *)

Module Cart.
Import Py models serializers.

(** The requests that change the cart table: a write through
    [CartItemSerializer] (an INSERT when [key] is new, an UPDATE
    otherwise) and the removal of a row. *)
Inductive operation : Type :=
| Write (key : pk) (owner : option pk) (session : option string) (product value : Z)
| Remove (key : pk).

Section Operations.

(** The upper end of the database's integer range and the products on
    sale, which the cart operations do not change. *)
Variable integer_max : Z.
Variable product_table : gmap pk Product.

Definition apply (table : gmap pk CartItem) (op : operation)
  : outcome (gmap pk CartItem) :=
  match op with
  | Write key owner session product value =>
      CartItemSerializer.save integer_max product_table table key owner session
        product value
  | Remove key => Return (CartItem_delete table key)
  end.

(** A request that raises changes nothing. *)
Definition step (table : gmap pk CartItem) (op : operation) : gmap pk CartItem :=
  match apply table op with
  | Return table' => table'
  | Raise _ => table
  end.

Definition run (ops : list operation) (table : gmap pk CartItem) : gmap pk CartItem :=
  fold_left step ops table.

End Operations.

Definition quantities_positive (table : gmap pk CartItem) : Prop :=
  ∀ key row, table !! key = Some row → 1 <= quantity row.

(** No two rows have the same user and product, nor the same session
    key and product. *)
Definition one_row_per_product (table : gmap pk CartItem) : Prop :=
  ∀ k1 k2 r1 r2,
    k1 ≠ k2 → table !! k1 = Some r1 → table !! k2 = Some r2 →
    (∀ u, user r1 = Some u → user r2 = Some u →
          cart_item_product r1 ≠ cart_item_product r2)
    ∧ (∀ s, session_key r1 = Some s → session_key r2 = Some s →
          cart_item_product r1 ≠ cart_item_product r2).

End Cart.

(* ===================================================================== *)
(** * The reference definition of the check digit                         *)
(* ===================================================================== *)

(** The algorithm as section 4.1 of the specification words it, to be
    compared with [calculate_dv]. *)
Module Reference.
Import Py.

(** "Left-pad the body with zeros to at least 8 digits." *)
Definition pad8 (body : pystr) : pystr :=
  repeat 48%N (8 - length body) ++ body.

Definition digit_value (c : N) : Z := default 0 (Unicode.todecimal c).

(** "A cyclic weight sequence 2,3,4,5,6,7,2,3,... (reset to 2 after
    reaching 7)": the weight of the digit at position [i], counted from
    the least significant one. *)
Definition weight (i : nat) : Z := 2 + Z.of_nat (i mod 6).

(** The weighted sum of digits given least significant first, the first
    of them at position [i]. *)
Fixpoint weighted_sum (i : nat) (digits : list Z) : Z :=
  match digits with
  | [] => 0
  | d :: rest => d * weight i + weighted_sum (S i) rest
  end.

(** "Map dv=10 to 'K', dv=11 to '0', else the decimal digit as a
    character." *)
Definition check_character (dv : Z) : pystr :=
  if dv =? 10 then lit "K"
  else if dv =? 11 then lit "0"
  else [Z.to_N (48 + dv)].

(** The weighted sum of a body, least significant digit first, without
    any padding. *)
Definition body_sum (body : pystr) : Z :=
  weighted_sum 0 (List.map digit_value (rev body)).

Definition dv (body : pystr) : pystr :=
  let digits := List.map digit_value (rev (pad8 body)) in
  let remainder := weighted_sum 0 digits mod 11 in
  check_character (11 - remainder).

End Reference.

(* ===================================================================== *)
(** * Facts about the Unicode tables                                      *)
(* ===================================================================== *)

Section UnicodeFacts.
Import Unicode.

Lemma assoc_In {A : Type} (c : N) (table : list (N * A)) (v : A) :
  assoc c table = Some v → In v (List.map snd table).
Proof.
  induction table as [|[k w] table IH]; simpl; [discriminate|].
  destruct (k =? c)%N; [intros [= ->]; now left | intros H; right; auto].
Qed.

Lemma uppercase_images_settled : forallb settled uppercase_images = true.
Proof. vm_compute. reflexivity. Qed.

Lemma special_uppercase_nonempty :
  forallb (fun cs => negb (Nat.eqb (length cs) 0)) (List.map snd special_uppercase) = true.
Proof. vm_compute. reflexivity. Qed.

Lemma toupper_cases (c : N) :
  toupper c = [c] ∨ (toupper c ≠ [] ∧ Forall (fun d => settled d = true) (toupper c)).
Proof.
  unfold toupper.
  destruct (assoc c special_uppercase) as [cs|] eqn:Hs.
  - right. apply assoc_In in Hs. split.
    + pose proof special_uppercase_nonempty as Hne.
      rewrite List.forallb_forall in Hne. specialize (Hne _ Hs).
      destruct cs; [discriminate | discriminate].
    + apply List.Forall_forall. intros d Hd.
      pose proof uppercase_images_settled as Hall.
      rewrite List.forallb_forall in Hall. apply Hall.
      unfold uppercase_images. apply in_or_app. left.
      apply List.in_concat. exists cs. split; assumption.
  - destruct (assoc c simple_uppercase) as [u|] eqn:Hu; [|now left].
    right. split; [discriminate|].
    apply assoc_In in Hu. constructor; [|constructor].
    pose proof uppercase_images_settled as Hall.
    rewrite List.forallb_forall in Hall. apply Hall.
    unfold uppercase_images. apply in_or_app. now right.
Qed.

Lemma settled_fixed (d : N) : settled d = true → toupper d = [d].
Proof.
  unfold settled. rewrite !andb_true_iff.
  intros [[H _] _]. now apply bool_decide_eq_true in H.
Qed.

Lemma settled_not_space (d : N) : settled d = true → isspace d = false.
Proof.
  unfold settled. rewrite !andb_true_iff.
  intros [[_ H] _]. now apply negb_true_iff in H.
Qed.

Lemma settled_not_dot_dash (d : N) :
  settled d = true → negb ((d =? 46) || (d =? 45))%N = true.
Proof. unfold settled. rewrite !andb_true_iff. now intros [_ H]. Qed.

(** Upper-casing is idempotent on every code point. *)
Lemma toupper_fixed (c d : N) : In d (toupper c) → toupper d = [d].
Proof.
  destruct (toupper_cases c) as [Heq | [_ Hall]].
  - rewrite Heq. intros [<- | []]. exact Heq.
  - rewrite List.Forall_forall in Hall. intros Hd. apply settled_fixed, Hall, Hd.
Qed.

Lemma toupper_not_space (c d : N) :
  isspace c = false → In d (toupper c) → isspace d = false.
Proof.
  intros Hc. destruct (toupper_cases c) as [Heq | [_ Hall]].
  - rewrite Heq. intros [<- | []]. exact Hc.
  - rewrite List.Forall_forall in Hall. intros Hd. apply settled_not_space, Hall, Hd.
Qed.

Lemma toupper_not_dot_dash (c d : N) :
  negb ((c =? 46) || (c =? 45))%N = true → In d (toupper c) →
  negb ((d =? 46) || (d =? 45))%N = true.
Proof.
  intros Hc. destruct (toupper_cases c) as [Heq | [_ Hall]].
  - rewrite Heq. intros [<- | []]. exact Hc.
  - rewrite List.Forall_forall in Hall. intros Hd. apply settled_not_dot_dash, Hall, Hd.
Qed.

Lemma toupper_nonempty (c : N) : toupper c ≠ [].
Proof.
  destruct (toupper_cases c) as [Heq | [Hne _]]; [rewrite Heq; discriminate | exact Hne].
Qed.

(** A decimal digit has a value between 0 and 9. *)
Lemma todecimal_range (c : N) (d : Z) : todecimal c = Some d → 0 <= d <= 9.
Proof.
  unfold todecimal.
  destruct (List.find (in_run c) decimal_runs) as [start|] eqn:Hf; [|discriminate].
  intros [= <-]. apply List.find_some in Hf as [_ Hr].
  unfold in_run, in_range in Hr. simpl in Hr.
  apply andb_true_iff in Hr as [H1 H2].
  apply N.leb_le in H1, H2. lia.
Qed.

(** The ASCII digits are decimal digits, with their usual values. *)
Lemma ascii_digit_todecimal (c : N) :
  (48 <= c <= 57)%N → todecimal c = Some (Z.of_N c - 48).
Proof.
  intros H.
  assert (c = 48 ∨ c = 49 ∨ c = 50 ∨ c = 51 ∨ c = 52 ∨ c = 53 ∨ c = 54 ∨ c = 55
          ∨ c = 56 ∨ c = 57)%N as Hc by lia.
  repeat (destruct Hc as [-> | Hc]; [reflexivity|]). subst. reflexivity.
Qed.

Lemma ascii_digit_isdecimal (c : N) : (48 <= c <= 57)%N → isdecimal c = true.
Proof. intros H. unfold isdecimal. now rewrite (ascii_digit_todecimal c H). Qed.

Lemma isdecimal_isdigit (c : N) : isdecimal c = true → isdigit c = true.
Proof. unfold isdigit. intros ->. reflexivity. Qed.

Lemma isdecimal_not_sign (c : N) :
  isdecimal c = true → ((c =? 43) || (c =? 45))%N = false.
Proof.
  intros H. apply orb_false_iff. split; apply N.eqb_neq; intros ->; discriminate H.
Qed.

End UnicodeFacts.

(* ===================================================================== *)
(** * Normalisation: [clean_rut]                                          *)
(* ===================================================================== *)

Section CleanRut.
Import Unicode Py validators.

Lemma lstrip_starts_clean (s : pystr) : starts_clean (lstrip s).
Proof.
  induction s as [|c s IH]; simpl; [exact I|].
  destruct (isspace c) eqn:Hc; [exact IH | exact Hc].
Qed.

Lemma lstrip_id (s : pystr) : starts_clean s → lstrip s = s.
Proof. destruct s as [|c s]; simpl; [reflexivity | intros ->; reflexivity]. Qed.

(** [lstrip] keeps a suffix. *)
Lemma lstrip_suffix (s : pystr) : ∃ p, s = p ++ lstrip s.
Proof.
  induction s as [|c s [p IH]]; [exists []; reflexivity|]. simpl.
  destruct (isspace c).
  - exists (c :: p). simpl. now rewrite <- IH.
  - exists []. reflexivity.
Qed.

Lemma starts_clean_prefix (s t : pystr) : starts_clean (s ++ t) → starts_clean s.
Proof. destruct s; simpl; auto. Qed.

Lemma rstrip_id (s : pystr) : starts_clean (rev s) → rstrip s = s.
Proof. intros H. unfold rstrip. rewrite lstrip_id by exact H. apply rev_involutive. Qed.

Lemma strip_starts_clean (s : pystr) : starts_clean (strip s).
Proof.
  unfold strip, rstrip.
  destruct (lstrip_suffix (rev (lstrip s))) as [p Hp].
  apply (starts_clean_prefix _ (rev p)).
  rewrite <- rev_app_distr, <- Hp, rev_involutive.
  apply lstrip_starts_clean.
Qed.

Lemma strip_ends_clean (s : pystr) : starts_clean (rev (strip s)).
Proof. unfold strip, rstrip. rewrite rev_involutive. apply lstrip_starts_clean. Qed.

Lemma strip_id (s : pystr) : starts_clean s → starts_clean (rev s) → strip s = s.
Proof. intros H1 H2. unfold strip. rewrite (lstrip_id s H1). now apply rstrip_id. Qed.

(** [strip] only removes characters. *)
Lemma strip_incl (s : pystr) (c : N) : In c (strip s) → In c s.
Proof.
  unfold strip, rstrip. intros H. apply in_rev in H.
  destruct (lstrip_suffix (rev (lstrip s))) as [p Hp].
  assert (In c (rev (lstrip s))) as H' by (rewrite Hp; apply in_or_app; now right).
  apply in_rev in H'.
  destruct (lstrip_suffix s) as [q Hq]. rewrite Hq. apply in_or_app. now right.
Qed.

Lemma upper_starts_clean (s : pystr) : starts_clean s → starts_clean (upper s).
Proof.
  destruct s as [|c s]; simpl; [auto|]. intros Hc.
  pose proof (toupper_nonempty c) as Hne.
  pose proof (toupper_not_space c) as Hsp.
  destruct (toupper c) as [|d ds]; [congruence|]. simpl.
  apply Hsp; [exact Hc | now left].
Qed.

Lemma rev_upper (s : pystr) :
  rev (upper s) = flat_map (fun c => rev (toupper c)) (rev s).
Proof.
  unfold upper. induction s as [|c s IH]; simpl; [reflexivity|].
  rewrite rev_app_distr, IH, flat_map_app. simpl. now rewrite app_nil_r.
Qed.

Lemma upper_ends_clean (s : pystr) : starts_clean (rev s) → starts_clean (rev (upper s)).
Proof.
  rewrite rev_upper. destruct (rev s) as [|c r]; simpl; [auto|]. intros Hc.
  pose proof (toupper_nonempty c) as Hne.
  pose proof (toupper_not_space c) as Hsp.
  destruct (rev (toupper c)) as [|d ds] eqn:Hr.
  - apply (f_equal (@rev N)) in Hr. rewrite rev_involutive in Hr. simpl in Hr. congruence.
  - simpl. apply Hsp; [exact Hc|]. apply in_rev. rewrite Hr. now left.
Qed.

Lemma upper_upper (s : pystr) : upper (upper s) = upper s.
Proof.
  unfold upper. induction s as [|c s IH]; simpl; [reflexivity|].
  rewrite flat_map_app, IH. f_equal.
  assert (∀ l, (∀ d, In d l → toupper d = [d]) → flat_map toupper l = l) as Hfix.
  { induction l as [|d l IHl]; simpl; [reflexivity|]. intros H.
    rewrite (H d) by now left. simpl. f_equal. apply IHl. intros e He. apply H. now right. }
  apply Hfix. intros d Hd. exact (toupper_fixed c d Hd).
Qed.

Lemma re_sub_dot_dash_id (s : pystr) :
  (∀ c, In c s → negb ((c =? 46) || (c =? 45))%N = true) → re_sub_dot_dash s = s.
Proof.
  unfold re_sub_dot_dash. induction s as [|c s IH]; simpl; [reflexivity|]. intros H.
  rewrite (H c) by now left. f_equal. apply IH. intros d Hd. apply H. now right.
Qed.

Lemma clean_rut_no_dot_dash (x : pystr) (c : N) :
  In c (clean_rut x) → negb ((c =? 46) || (c =? 45))%N = true.
Proof.
  unfold clean_rut, upper. intros H. apply in_flat_map in H as [b [Hb Hc]].
  apply (toupper_not_dot_dash b c); [|exact Hc].
  apply strip_incl in Hb. unfold re_sub_dot_dash in Hb.
  apply filter_In in Hb. tauto.
Qed.

(** C7.  [clean_rut] is idempotent: for every string [x], whatever its
    dots, dashes, surrounding white space and letter case,
    [clean_rut (clean_rut x) = clean_rut x]. *)
Theorem clean_rut_idempotent (x : pystr) : clean_rut (clean_rut x) = clean_rut x.
Proof.
  assert (re_sub_dot_dash (clean_rut x) = clean_rut x) as Hsub
    by (apply re_sub_dot_dash_id, clean_rut_no_dot_dash).
  unfold clean_rut at 1. rewrite Hsub. unfold clean_rut.
  rewrite strip_id.
  - apply upper_upper.
  - apply upper_starts_clean, strip_starts_clean.
  - apply upper_ends_clean, strip_ends_clean.
Qed.

End CleanRut.

(* ===================================================================== *)
(** * The check digit: [calculate_dv]                                     *)
(* ===================================================================== *)

Section CheckDigit.
Import Py validators.

Lemma weight_range (i : nat) : 2 <= Reference.weight i <= 7.
Proof.
  unfold Reference.weight. pose proof (Nat.mod_upper_bound i 6). lia.
Qed.

(** The loop's [factor] follows the cyclic weights. *)
Lemma weight_next (i : nat) :
  (if 7 <? Reference.weight i + 1 then 2 else Reference.weight i + 1)
  = Reference.weight (S i).
Proof.
  unfold Reference.weight.
  assert (S i mod 6 = if Nat.eqb (i mod 6) 5 then 0 else S (i mod 6))%nat as ->.
  { pose proof (Nat.mod_upper_bound i 6 ltac:(lia)) as Hb.
    pose proof (Nat.div_mod_eq i 6) as Hi.
    destruct (Nat.eqb_spec (i mod 6) 5) as [H5|H5].
    - symmetry. apply (Nat.mod_unique (S i) 6 (S (i / 6)) 0); lia.
    - symmetry. apply (Nat.mod_unique (S i) 6 (i / 6) (S (i mod 6))); lia. }
  pose proof (Nat.mod_upper_bound i 6 ltac:(lia)) as Hb.
  destruct (Nat.eqb_spec (i mod 6) 5) as [H5|H5];
    destruct (Z.ltb_spec 7 (2 + Z.of_nat (i mod 6) + 1)); lia.
Qed.

Lemma int_decimal (c : N) :
  Unicode.isdecimal c = true → int c = Return (Reference.digit_value c).
Proof.
  unfold Unicode.isdecimal, int, Reference.digit_value.
  destruct (Unicode.todecimal c); [reflexivity | discriminate].
Qed.

Lemma int_not_decimal (c : N) : Unicode.isdecimal c = false → int c = Raise ValueError.
Proof.
  unfold Unicode.isdecimal, int. destruct (Unicode.todecimal c); [discriminate | reflexivity].
Qed.

(** On decimal digits the loop returns the weighted sum. *)
Lemma dv_loop_decimal (digits : pystr) (i : nat) (acc : Z) :
  forallb Unicode.isdecimal digits = true →
  dv_loop digits (Reference.weight i) acc
  = Return (acc + Reference.weighted_sum i (List.map Reference.digit_value digits)).
Proof.
  revert i acc. induction digits as [|c digits IH]; intros i acc Hd; simpl.
  - f_equal. lia.
  - apply andb_true_iff in Hd as [Hc Hd].
    rewrite (int_decimal c Hc). simpl.
    rewrite weight_next, (IH (S i) _ Hd). f_equal. lia.
Qed.

(** The loop raises [ValueError] at the first character that is not a
    decimal digit. *)
Lemma dv_loop_not_decimal (digits : pystr) (factor acc : Z) :
  forallb Unicode.isdecimal digits = false → dv_loop digits factor acc = Raise ValueError.
Proof.
  revert factor acc. induction digits as [|c digits IH]; intros factor acc Hd; simpl.
  - discriminate.
  - simpl in Hd. destruct (Unicode.isdecimal c) eqn:Hc.
    + destruct (Unicode.todecimal c) as [d|] eqn:Ht.
      * unfold int. rewrite Ht. simpl. apply IH. exact Hd.
      * unfold Unicode.isdecimal in Hc. rewrite Ht in Hc. discriminate.
    + rewrite (int_not_decimal c Hc). reflexivity.
Qed.

Lemma weighted_sum_zeros (i n : nat) : Reference.weighted_sum i (repeat 0 n) = 0.
Proof. revert i. induction n as [|n IH]; intros i; simpl; [reflexivity|]. rewrite IH. lia. Qed.

(** Zeros beyond the most significant digit add nothing. *)
Lemma weighted_sum_app_zeros (i n : nat) (digits : list Z) :
  Reference.weighted_sum i (digits ++ repeat 0 n) = Reference.weighted_sum i digits.
Proof.
  revert i. induction digits as [|d digits IH]; intros i; simpl.
  - apply weighted_sum_zeros.
  - now rewrite IH.
Qed.

Lemma weighted_sum_nonneg (i : nat) (digits : list Z) :
  Forall (fun d => 0 <= d) digits → 0 <= Reference.weighted_sum i digits.
Proof.
  intros H. revert i. induction H as [|d digits Hd _ IH]; intros i; simpl; [lia|].
  pose proof (weight_range i). specialize (IH (S i)). nia.
Qed.

Lemma digit_value_zero : Reference.digit_value 48 = 0.
Proof. reflexivity. Qed.

Lemma map_digit_value_zeros (n : nat) :
  List.map Reference.digit_value (repeat 48%N n) = repeat 0 n.
Proof. induction n as [|n IH]; simpl; [reflexivity|]. now rewrite IH, digit_value_zero. Qed.

Lemma forallb_isdecimal_zeros (n : nat) : forallb Unicode.isdecimal (repeat 48%N n) = true.
Proof. induction n as [|n IH]; simpl; [reflexivity | exact IH]. Qed.

(** [zfill] on a body that does not start with a sign pads on the left. *)
Lemma zfill_decimal (body : pystr) :
  forallb Unicode.isdecimal body = true → zfill 8 body = Reference.pad8 body.
Proof.
  intros Hd. unfold zfill, Reference.pad8.
  destruct (8 - length body)%nat as [|n] eqn:Hn; [reflexivity|].
  destruct body as [|c body]; [now rewrite app_nil_r|].
  simpl in Hd. apply andb_true_iff in Hd as [Hc _].
  now rewrite (isdecimal_not_sign c Hc).
Qed.

Lemma padded_sum (n : nat) (body : pystr) :
  Reference.weighted_sum 0 (List.map Reference.digit_value (rev (repeat 48%N n ++ body)))
  = Reference.body_sum body.
Proof.
  unfold Reference.body_sum.
  rewrite rev_app_distr, map_app, rev_repeat, map_digit_value_zeros.
  apply weighted_sum_app_zeros.
Qed.

Lemma str_digit (dv : Z) : 1 <= dv <= 9 → str dv = [Z.to_N (48 + dv)].
Proof.
  intros H.
  assert (dv = 1 ∨ dv = 2 ∨ dv = 3 ∨ dv = 4 ∨ dv = 5 ∨ dv = 6 ∨ dv = 7 ∨ dv = 8 ∨ dv = 9)
    as Hc by lia.
  repeat (destruct Hc as [-> | Hc]; [reflexivity|]). subst. reflexivity.
Qed.

(** What [calculate_dv] returns on a body of decimal digits. *)
Lemma calculate_dv_decimal (body : pystr) :
  forallb Unicode.isdecimal body = true →
  calculate_dv body = Return (Reference.check_character (11 - Reference.body_sum body mod 11)).
Proof.
  intros Hd. unfold calculate_dv.
  rewrite (zfill_decimal body Hd). unfold Reference.pad8.
  change 2 with (Reference.weight 0).
  rewrite dv_loop_decimal.
  2:{ rewrite List.forallb_forall. intros c Hc. apply in_rev, in_app_or in Hc as [Hc|Hc].
      - apply repeat_spec in Hc. now subst.
      - rewrite List.forallb_forall in Hd. now apply Hd. }
  simpl. rewrite Z.add_0_l, padded_sum.
  unfold Reference.check_character.
  pose proof (Z.mod_pos_bound (Reference.body_sum body) 11 ltac:(lia)) as Hm.
  destruct (11 - Reference.body_sum body mod 11 =? 10) eqn:H10; [reflexivity|].
  destruct (11 - Reference.body_sum body mod 11 =? 11) eqn:H11; [reflexivity|].
  apply Z.eqb_neq in H10, H11. rewrite str_digit by lia. reflexivity.
Qed.

(** The check character is one character long. *)
Lemma check_character_single (dv : Z) : ∃ d, Reference.check_character dv = [d].
Proof.
  unfold Reference.check_character.
  destruct (dv =? 10); [eexists; reflexivity|].
  destruct (dv =? 11); eexists; reflexivity.
Qed.

End CheckDigit.

Section Validation.
Import Py validators.

Lemma isdecimal_str_inv (body : pystr) :
  isdecimal body = true → body ≠ [] ∧ forallb Unicode.isdecimal body = true.
Proof. destruct body; simpl; [discriminate | intros H; split; [discriminate | exact H]]. Qed.

Lemma isdecimal_str_isdigit (body : pystr) : isdecimal body = true → isdigit body = true.
Proof.
  destruct body as [|c body]; [discriminate|]. unfold isdecimal, isdigit.
  rewrite !List.forallb_forall. intros H x Hx. apply isdecimal_isdigit, H, Hx.
Qed.

Lemma zfill_incl (width : nat) (s : pystr) (c : N) : In c s → In c (zfill width s).
Proof.
  unfold zfill. destruct (width - length s)%nat as [|n]; [auto|].
  destruct s as [|a s]; [intros []|].
  destruct ((a =? 43) || (a =? 45))%N.
  - intros [<- | H]; [now left|]. right. apply in_or_app. right. exact H.
  - intros H. apply in_or_app. right. exact H.
Qed.

(** A body with a character that is not a decimal digit makes
    [calculate_dv] raise [ValueError]: the conversions run in the loop,
    where nothing catches it, and the empty string of the [except]
    branch is never returned. *)
Lemma calculate_dv_not_decimal (body : pystr) :
  forallb Unicode.isdecimal body = false → calculate_dv body = Raise ValueError.
Proof.
  intros Hd. unfold calculate_dv. rewrite dv_loop_not_decimal; [reflexivity|].
  destruct (forallb Unicode.isdecimal (rev (zfill 8 body))) eqn:Hz; [|reflexivity].
  rewrite List.forallb_forall in Hz.
  assert (forallb Unicode.isdecimal body = true) as Habs.
  { rewrite List.forallb_forall. intros c Hc. apply Hz, in_rev.
    rewrite rev_involutive. now apply zfill_incl. }
  congruence.
Qed.

(** The three steps of [validate_chilean_rut] once the cleaned input is
    known to be a body followed by one character. *)
Lemma validate_split (value body : pystr) (c : N) :
  clean_rut value = body ++ [c] → body ≠ [] →
  validate_chilean_rut value =
    if negb (isdigit body) then Raise (ValidationError msg_body_not_numeric)
    else dv_calculado ← calculate_dv body;
         if decide (dv_calculado = [c]) then Return value
         else Raise (ValidationError (msg_wrong_dv value dv_calculado)).
Proof.
  intros Hclean Hne. unfold validate_chilean_rut. rewrite Hclean.
  rewrite last_last, removelast_last.
  destruct body as [|b body]; [congruence|].
  destruct body; reflexivity.
Qed.

(** First half of C6: when the cleaned body is not made of digits, the
    validator raises a [ValidationError] about the format (too short, or
    a body that is not numeric). *)
Lemma validate_rejects_non_digit_body (value : pystr) :
  isdigit (removelast (clean_rut value)) = false →
  validate_chilean_rut value = Raise (ValidationError msg_too_short)
  ∨ validate_chilean_rut value = Raise (ValidationError msg_body_not_numeric).
Proof.
  intros H. unfold validate_chilean_rut.
  destruct (length (clean_rut value) <? 2)%nat; [now left|].
  rewrite H. now right.
Qed.

(** When [ValueError] escapes: exactly for a body that [isdigit] accepts
    although one of its characters has no decimal value. *)
Lemma validate_ValueError_iff (value body : pystr) (c : N) :
  clean_rut value = body ++ [c] →
  validate_chilean_rut value = Raise ValueError
  ↔ isdigit body = true ∧ forallb Unicode.isdecimal body = false.
Proof.
  intros Hclean. destruct body as [|b body].
  - unfold validate_chilean_rut. rewrite Hclean. simpl. split; [discriminate | intros [[=] _]].
  - rewrite (validate_split value (b :: body) c Hclean) by discriminate.
    destruct (isdigit (b :: body)) eqn:Hdig; simpl negb; cbv iota.
    + destruct (forallb Unicode.isdecimal (b :: body)) eqn:Hdec.
      * rewrite (calculate_dv_decimal _ Hdec). simpl.
        destruct (decide _); split; try discriminate; intros [_ [=]].
      * rewrite (calculate_dv_not_decimal _ Hdec). simpl. tauto.
    + split; [discriminate | intros [[=] _]].
Qed.

(** C1.  When the cleaned body consists of decimal digits, the check
    character [d] that [calculate_dv] computes exists, and the validator
    returns its input unchanged if the supplied check character is [d]
    and otherwise raises the checksum error, whose message ends by
    citing [d].  Bodies shorter than 8 digits, the results K and 0 and a
    lower-case k are covered; in particular body 76086428 has check
    character 5, so 76086428-5 validates and 76086428-4 fails citing 5. *)
Theorem validate_chilean_rut_checksum :
  (∀ (value body : pystr) (c : N),
      clean_rut value = body ++ [c] →
      isdecimal body = true →
      ∃ d, calculate_dv body = Return [d]
           ∧ (c = d → validate_chilean_rut value = Return value)
           ∧ (c ≠ d →
              validate_chilean_rut value
              = Raise (ValidationError (msg_wrong_dv value [d]))
              ∧ ∃ pre, msg_wrong_dv value [d]
                       = pre ++ lit "correcto es '" ++ [d] ++ lit "'."))
  ∧ calculate_dv (lit "76086428") = Return (lit "5")
  ∧ validate_chilean_rut (lit "76086428-5") = Return (lit "76086428-5")
  ∧ validate_chilean_rut (lit "76.086.428-5") = Return (lit "76.086.428-5")
  ∧ validate_chilean_rut (lit "76086428-4")
    = Raise (ValidationError (msg_wrong_dv (lit "76086428-4") (lit "5")))
  ∧ validate_chilean_rut (lit "1-9") = Return (lit "1-9")
  ∧ validate_chilean_rut (lit "6-K") = Return (lit "6-K")
  ∧ validate_chilean_rut (lit "6-k") = Return (lit "6-k")
  ∧ validate_chilean_rut (lit "14-0") = Return (lit "14-0")
  ∧ validate_chilean_rut (lit "14-K")
    = Raise (ValidationError (msg_wrong_dv (lit "14-K") (lit "0"))).
Proof.
  split; [|repeat split; vm_compute; reflexivity].
  intros value body c Hclean Hbody.
  pose proof (isdecimal_str_inv body Hbody) as [Hne Hdec].
  destruct (check_character_single (11 - Reference.body_sum body mod 11)) as [d Hd].
  pose proof (calculate_dv_decimal body Hdec) as Hdv. rewrite Hd in Hdv.
  exists d. split; [exact Hdv|].
  rewrite (validate_split value body c Hclean Hne).
  rewrite (isdecimal_str_isdigit body Hbody), Hdv. simpl.
  split.
  - intros ->. destruct (decide ([d] = [d])); [reflexivity | congruence].
  - intros Hcd. destruct (decide ([d] = [c])) as [[= ->]|_]; [congruence|].
    split; [reflexivity|].
    unfold msg_wrong_dv.
    exists (lit "El RUT ingresado ('" ++ value ++ lit "') es inv" ++ [225%N]
            ++ lit "lido. El d" ++ [237%N] ++ lit "gito verificador ").
    rewrite <- !app_assoc. reflexivity.
Qed.

(** The general statement of C1 at the input 76.086.428-5. *)
Lemma validate_chilean_rut_checksum_witness :
  clean_rut (lit "76.086.428-5") = lit "76086428" ++ [53%N]
  ∧ isdecimal (lit "76086428") = true
  ∧ ∃ d, calculate_dv (lit "76086428") = Return [d]
         ∧ (53%N = d → validate_chilean_rut (lit "76.086.428-5") = Return (lit "76.086.428-5"))
         ∧ (53%N ≠ d →
            validate_chilean_rut (lit "76.086.428-5")
            = Raise (ValidationError (msg_wrong_dv (lit "76.086.428-5") [d]))
            ∧ ∃ pre, msg_wrong_dv (lit "76.086.428-5") [d]
                     = pre ++ lit "correcto es '" ++ [d] ++ lit "'.").
Proof.
  split; [vm_compute; reflexivity|]. split; [vm_compute; reflexivity|].
  apply (proj1 validate_chilean_rut_checksum (lit "76.086.428-5") (lit "76086428") 53%N);
    vm_compute; reflexivity.
Defined.

(** C2.  On every body of decimal digits [calculate_dv] returns what the
    reference definition of the algorithm gives: pad to 8 digits, weigh
    the digits from the least significant one by 2,3,4,5,6,7,2,3,...,
    take the sum modulo 11, subtract from 11, and map 10 to K, 11 to 0
    and any other value to its digit. *)
Theorem calculate_dv_refines_reference (body : pystr) :
  forallb Unicode.isdecimal body = true →
  calculate_dv body = Return (Reference.dv body).
Proof.
  intros Hd. rewrite (calculate_dv_decimal body Hd).
  unfold Reference.dv, Reference.pad8. now rewrite padded_sum.
Qed.

Lemma calculate_dv_refines_reference_witness :
  forallb Unicode.isdecimal (lit "76086428") = true
  ∧ calculate_dv (lit "76086428") = Return (Reference.dv (lit "76086428")).
Proof.
  split; [vm_compute; reflexivity|].
  apply (calculate_dv_refines_reference (lit "76086428")). vm_compute. reflexivity.
Defined.

(** C10.  Zeros written in front of a body of decimal digits do not
    change the check character:
    [calculate_dv ('0' * k + b) = calculate_dv b]. *)
Theorem calculate_dv_leading_zeros (b : pystr) (k : nat) :
  forallb Unicode.isdecimal b = true →
  calculate_dv (repeat 48%N k ++ b) = calculate_dv b.
Proof.
  intros Hd. rewrite (calculate_dv_decimal b Hd).
  rewrite calculate_dv_decimal.
  - unfold Reference.body_sum at 1. now rewrite padded_sum.
  - rewrite forallb_app, forallb_isdecimal_zeros. exact Hd.
Qed.

Lemma calculate_dv_leading_zeros_witness :
  forallb Unicode.isdecimal (lit "12345") = true
  ∧ calculate_dv (repeat 48%N 11 ++ lit "12345") = calculate_dv (lit "12345").
Proof.
  split; [vm_compute; reflexivity|].
  apply (calculate_dv_leading_zeros (lit "12345") 11). vm_compute. reflexivity.
Defined.

(** C6, at the input whose body is the superscript two (U+00B2) and
    whose check character is 5: the body passes [isdigit], [int] has no
    value for it, and [ValueError] leaves [validate_chilean_rut]. *)
Theorem validate_chilean_rut_raises_ValueError :
  clean_rut [178%N; 53%N] = [178%N; 53%N]
  ∧ isdigit [178%N] = true
  ∧ int 178%N = Raise ValueError
  ∧ calculate_dv [178%N] = Raise ValueError
  ∧ validate_chilean_rut [178%N; 53%N] = Raise ValueError.
Proof. repeat split; vm_compute; reflexivity. Qed.

End Validation.

(* ===================================================================== *)
(** * Timestamps of documents                                             *)
(* ===================================================================== *)

Section Timestamps.
Import Py serializers.

(** C5 as stated fails for purchases: a purchase dated one hour from now,
    on the same calendar day, passes [validate_purchase_date]. *)
Lemma validate_purchase_date_accepts_later_today :
  ¬ (∀ now value : datetime,
        instant now < instant value →
        ∃ detail, PurchaseSerializer.validate_purchase_date now value
                  = Raise (ValidationError detail)).
Proof.
  intros H.
  destruct (H {| instant := 0; utcoffset := 0 |}
              {| instant := 3600000000; utcoffset := 0 |} ltac:(simpl; lia))
    as [detail Hd].
  vm_compute in Hd. discriminate Hd.
Qed.

(** C5, amended.  A sale is checked instant against instant: it is
    refused exactly when its timestamp is later than the current time.
    A purchase is checked calendar day against calendar day: it is
    refused exactly when its day is later than the current day, which
    in one time zone means a timestamp of a later day, never one of
    later today. *)
Theorem future_timestamp_checks :
  (∀ now value : datetime,
      instant now < instant value →
      SaleSerializer.validate_created_at now value
      = Raise (ValidationError SaleSerializer.msg_future))
  ∧ (∀ now value : datetime,
      instant value <= instant now →
      SaleSerializer.validate_created_at now value = Return value)
  ∧ (∀ now value : datetime,
      date now < date value →
      PurchaseSerializer.validate_purchase_date now value
      = Raise (ValidationError PurchaseSerializer.msg_future))
  ∧ (∀ now value : datetime,
      date value <= date now →
      PurchaseSerializer.validate_purchase_date now value = Return value)
  ∧ (∀ now value : datetime,
      utcoffset value = utcoffset now →
      date now < date value → instant now < instant value)
  ∧ (∀ now value : datetime,
      utcoffset value = utcoffset now →
      instant value <= instant now →
      PurchaseSerializer.validate_purchase_date now value = Return value).
Proof.
  assert (∀ now value : datetime,
             utcoffset value = utcoffset now →
             instant value <= instant now → date value <= date now) as Hmono.
  { intros now value Hoff Hle. unfold date. rewrite Hoff.
    apply Z.div_le_mono; [reflexivity | lia]. }
  repeat split.
  - intros now value H. unfold SaleSerializer.validate_created_at, datetime_gt.
    destruct (Z.ltb_spec (instant now) (instant value)); [reflexivity | lia].
  - intros now value H. unfold SaleSerializer.validate_created_at, datetime_gt.
    destruct (Z.ltb_spec (instant now) (instant value)); [lia | reflexivity].
  - intros now value H. unfold PurchaseSerializer.validate_purchase_date.
    destruct (Z.ltb_spec (date now) (date value)); [reflexivity | lia].
  - intros now value H. unfold PurchaseSerializer.validate_purchase_date.
    destruct (Z.ltb_spec (date now) (date value)); [lia | reflexivity].
  - intros now value Hoff H.
    destruct (Z.lt_ge_cases (instant now) (instant value)) as [Hlt|Hge]; [exact Hlt|].
    pose proof (Hmono now value Hoff Hge). lia.
  - intros now value Hoff H. unfold PurchaseSerializer.validate_purchase_date.
    pose proof (Hmono now value Hoff H).
    destruct (Z.ltb_spec (date now) (date value)); [lia | reflexivity].
Qed.

(** The amended statement at 12:00 on day 20000, for timestamps one hour
    later, one hour earlier and one day later. *)
Lemma future_timestamp_checks_witness :
  let now := {| instant := 20000 * 86400000000 + 43200000000; utcoffset := 0 |} in
  let later := {| instant := 20000 * 86400000000 + 46800000000; utcoffset := 0 |} in
  let earlier := {| instant := 20000 * 86400000000 + 39600000000; utcoffset := 0 |} in
  let tomorrow := {| instant := 20001 * 86400000000 + 43200000000; utcoffset := 0 |} in
  SaleSerializer.validate_created_at now later
  = Raise (ValidationError SaleSerializer.msg_future)
  ∧ SaleSerializer.validate_created_at now earlier = Return earlier
  ∧ PurchaseSerializer.validate_purchase_date now tomorrow
    = Raise (ValidationError PurchaseSerializer.msg_future)
  ∧ PurchaseSerializer.validate_purchase_date now later = Return later
  ∧ instant now < instant tomorrow
  ∧ PurchaseSerializer.validate_purchase_date now earlier = Return earlier.
Proof.
  intros now later earlier tomorrow.
  destruct future_timestamp_checks as (H1 & H2 & H3 & H4 & H5 & H6).
  split; [apply H1; vm_compute; reflexivity|].
  split; [apply H2; vm_compute; discriminate|].
  split; [apply H3; vm_compute; reflexivity|].
  split; [apply H4; vm_compute; discriminate|].
  split; [apply H5; vm_compute; reflexivity|].
  apply H6; vm_compute; [reflexivity | discriminate].
Defined.

End Timestamps.

(* ===================================================================== *)
(** * Unit values of line items                                           *)
(* ===================================================================== *)

Section LineItems.
Import Py models serializers.

Lemma quantity_field_Return (integer_max value q : Z) :
  quantity_field integer_max value = Return q ↔ q = value ∧ 1 <= value <= integer_max.
Proof.
  unfold quantity_field, MinValueValidator.
  destruct (Z.ltb_spec integer_max value); [split; [discriminate | lia]|].
  destruct (Z.leb_spec 1 value); simpl.
  - split; [intros [= <-]; lia | intros [-> _]; reflexivity].
  - split; [discriminate | lia].
Qed.

Lemma product_field_Return (product_table : gmap pk Product) (key p : pk) :
  product_field product_table key = Return p
  ↔ p = key ∧ is_Some (product_table !! key).
Proof.
  unfold product_field. destruct (product_table !! key) as [row|].
  - split; [intros [= <-]; eauto | intros [-> _]; reflexivity].
  - split; [discriminate | intros [_ [row [=]]]].
Qed.






End LineItems.

(* ===================================================================== *)
(** * The status of a new order                                           *)
(* ===================================================================== *)

Section OrderStatusAtCreation.
Import Py models serializers.

(** A name that is not in a list of field names, by comparing it with
    each of them. *)
Ltac not_a_field :=
  let H := fresh in
  intros H; apply list_elem_of_In in H; vm_compute in H; intuition discriminate.

Lemma validate_fields_keys (run_field : string → pyval → outcome pyval)
    (data : gmap string pyval) (names : list string) (vd : gmap string pyval)
    (f : string) :
  OrderSerializer.validate_fields run_field data names = Return vd →
  is_Some (vd !! f) → f ∈ names.
Proof.
  revert vd. induction names as [|g names IH]; intros vd; simpl.
  - intros [= <-] [v Hv]. rewrite lookup_empty in Hv. discriminate.
  - destruct (data !! g) as [v|].
    + destruct (run_field g v) as [v'|e]; simpl; [|discriminate].
      destruct (OrderSerializer.validate_fields run_field data names) as [rest|e];
        simpl; [|discriminate].
      intros [= <-] Hf. destruct (decide (g = f)) as [->|Hne]; [left|].
      right. rewrite lookup_insert_ne in Hf by exact Hne. now apply (IH rest).
    + match goal with |- context [if ?b then Raise _ else _] => destruct b end;
        [discriminate|].
      intros Hv Hf. right. now apply (IH vd).
Qed.

Lemma to_internal_value_keys (run_field : string → pyval → outcome pyval)
    (data vd : gmap string pyval) (f : string) :
  OrderSerializer.to_internal_value run_field data = Return vd →
  is_Some (vd !! f) → f ∈ OrderSerializer.writable_fields.
Proof. apply validate_fields_keys. Qed.

Lemma to_internal_value_read_only (run_field : string → pyval → outcome pyval)
    (data vd : gmap string pyval) (f : string) :
  OrderSerializer.to_internal_value run_field data = Return vd →
  f ∉ OrderSerializer.writable_fields → vd !! f = None.
Proof.
  intros Hv Hf. destruct (vd !! f) eqn:Hl; [|reflexivity].
  exfalso. apply Hf. eapply to_internal_value_keys; eauto.
Qed.

Lemma Order_create_default_status (adapts : string → pyval → bool)
    (kwargs : gmap string pyval) (o : Order) :
  kwargs !! "status"%string = None → Order_create adapts kwargs = Some o →
  status o = VStr (OrderStatus_value PENDIENTE).
Proof.
  intros Hs. unfold Order_create.
  destruct (_ && _); [|discriminate].
  intros [= <-]. simpl. unfold Order_attribute. rewrite Hs. reflexivity.
Qed.

(** C8.  An order saved through [OrderSerializer] has status PENDIENTE,
    whatever the request contained: the validated data never holds
    [status], [total] or [items], which are read-only, and [status] then
    takes its default.  The purchase and sale tables, and their
    serializers, have no [status] at all. *)
Theorem order_created_pending :
  (∀ (run_field : string → pyval → outcome pyval) (adapts : string → pyval → bool)
     (data vd kwargs : gmap string pyval) (o : Order),
      OrderSerializer.to_internal_value run_field data = Return vd →
      kwargs !! "status"%string = None →
      OrderSerializer.save adapts vd kwargs = Some o →
      status o = VStr (OrderStatus_value PENDIENTE))
  ∧ (∀ (run_field : string → pyval → outcome pyval) (data vd : gmap string pyval),
      OrderSerializer.to_internal_value run_field data = Return vd →
      vd !! "status"%string = None ∧ vd !! "total"%string = None
      ∧ vd !! "items"%string = None)
  ∧ ("status"%string ∉ Purchase_fields)
  ∧ ("status"%string ∉ Sale_fields)
  ∧ ("status"%string ∉ PurchaseSerializer.fields)
  ∧ ("status"%string ∉ SaleSerializer.fields).
Proof.
  assert (∀ (run_field : string → pyval → outcome pyval) (data vd : gmap string pyval),
             OrderSerializer.to_internal_value run_field data = Return vd →
             vd !! "status"%string = None ∧ vd !! "total"%string = None
             ∧ vd !! "items"%string = None) as Hro.
  { intros run_field data vd Hv.
    repeat split; apply (to_internal_value_read_only run_field data vd _ Hv);
      not_a_field. }
  split; [|split; [exact Hro|]].
  - intros run_field adapts data vd kwargs o Hv Hk Hsave.
    apply (Order_create_default_status adapts (kwargs ∪ vd)); [|exact Hsave].
    apply lookup_union_None. split; [exact Hk|]. apply (Hro run_field data vd Hv).
  - repeat split; not_a_field.
Qed.

(** The statement at a request that asks for status ENTREGADO and total
    0.01, saved by a view that supplies the company and the total; the
    fields accept their values as they are and the database takes every
    value. *)
Lemma order_created_pending_witness :
  let run_field := fun (_ : string) (v : pyval) => Return v in
  let adapts := fun (_ : string) (_ : pyval) => true in
  let data : gmap string pyval :=
    {[ "client_name"%string := VStr "Ana"; "client_email"%string := VStr "ana@example.cl";
       "status"%string := VStr "ENTREGADO"; "total"%string := VInt 1 ]} in
  let vd : gmap string pyval :=
    {[ "client_name"%string := VStr "Ana"; "client_email"%string := VStr "ana@example.cl" ]} in
  let kwargs : gmap string pyval :=
    {[ "company"%string := VInt 3; "total"%string := VInt 250000 ]} in
  let o := {| order_company := VInt 3; client_user := VNone; client_name := VStr "Ana";
              client_email := VStr "ana@example.cl"; status := VStr "PENDIENTE";
              order_total := VInt 250000 |} in
  OrderSerializer.to_internal_value run_field data = Return vd
  ∧ kwargs !! "status"%string = None
  ∧ OrderSerializer.save adapts vd kwargs = Some o
  ∧ status o = VStr (OrderStatus_value PENDIENTE)
  ∧ vd !! "status"%string = None ∧ vd !! "total"%string = None
  ∧ vd !! "items"%string = None.
Proof.
  intros run_field adapts data vd kwargs o.
  assert (OrderSerializer.to_internal_value run_field data = Return vd) as Hv
    by (vm_compute; reflexivity).
  assert (kwargs !! "status"%string = None) as Hk by (vm_compute; reflexivity).
  assert (OrderSerializer.save adapts vd kwargs = Some o) as Hs
    by (vm_compute; reflexivity).
  split; [exact Hv|]. split; [exact Hk|]. split; [exact Hs|].
  split; [exact (proj1 order_created_pending run_field adapts data vd kwargs o Hv Hk Hs)|].
  exact (proj1 (proj2 order_created_pending) run_field data vd Hv).
Defined.

End OrderStatusAtCreation.

(* ===================================================================== *)
(** * The cart                                                            *)
(* ===================================================================== *)

Section CartInvariant.
Import Py models serializers.

Lemma collides_sym (a b : CartItem) : CartItem_collides a b = CartItem_collides b a.
Proof.
  unfold CartItem_collides. f_equal.
  - unfold same_user_product.
    destruct (user a) as [u|], (user b) as [v|]; try reflexivity.
    now rewrite (Z.eqb_sym u v), (Z.eqb_sym (cart_item_product a)).
  - unfold same_session_product.
    destruct (session_key a) as [k|], (session_key b) as [l|]; try reflexivity.
    now rewrite (String.eqb_sym k l), (Z.eqb_sym (cart_item_product a)).
Qed.

(** Two rows that do not collide differ in product whenever they agree
    on a user or on a session key. *)
Lemma no_collision_distinct (a b : CartItem) :
  CartItem_collides a b = false →
  (∀ u, user a = Some u → user b = Some u →
        cart_item_product a ≠ cart_item_product b)
  ∧ (∀ s, session_key a = Some s → session_key b = Some s →
          cart_item_product a ≠ cart_item_product b).
Proof.
  unfold CartItem_collides, same_user_product, same_session_product.
  intros H. apply orb_false_iff in H as [Hu Hs]. split.
  - intros u Ha Hb Hp. rewrite Ha, Hb, Hp, !Z.eqb_refl in Hu. discriminate.
  - intros s Ha Hb Hp. rewrite Ha, Hb, Hp, String.eqb_refl, Z.eqb_refl in Hs. discriminate.
Qed.

Lemma CartItem_unique_spec (table : gmap pk CartItem) (key : pk) (row other : CartItem)
    (k : pk) :
  CartItem_unique table key row = true → table !! k = Some other → k ≠ key →
  CartItem_collides other row = false.
Proof.
  unfold CartItem_unique. rewrite List.forallb_forall. intros H Hk Hne.
  specialize (H (k, other)). simpl in H.
  assert (In (k, other) (map_to_list table)) as Hin
    by (apply list_elem_of_In, elem_of_map_to_list; exact Hk).
  specialize (H Hin). apply orb_true_iff in H as [H|H].
  - apply Z.eqb_eq in H. contradiction.
  - now apply negb_true_iff in H.
Qed.

Lemma save_preserves (table table' : gmap pk CartItem) (key : pk) (row : CartItem) :
  Cart.quantities_positive table → Cart.one_row_per_product table →
  1 <= quantity row →
  CartItem_save table key row = Return table' →
  Cart.quantities_positive table' ∧ Cart.one_row_per_product table'.
Proof.
  intros Hq Hu Hrow. unfold CartItem_save.
  destruct (CartItem_unique table key row) eqn:Huniq; [|discriminate].
  intros [= <-]. split.
  - intros k r Hk. apply lookup_insert_Some in Hk as [[_ <-] | [_ Hk]]; [exact Hrow|].
    exact (Hq k r Hk).
  - intros k1 k2 r1 r2 Hne H1 H2.
    apply lookup_insert_Some in H1 as [[<- <-] | [Hk1 H1]];
      apply lookup_insert_Some in H2 as [[Heq <-] | [Hk2 H2]].
    + congruence.
    + apply no_collision_distinct. rewrite collides_sym.
      apply (CartItem_unique_spec table key row r2 k2); auto.
    + apply no_collision_distinct.
      apply (CartItem_unique_spec table key row r1 k1); auto.
    + exact (Hu k1 k2 r1 r2 Hne H1 H2).
Qed.

(** What a write through the serializer stores when it stores. *)
Lemma serializer_save_Return (integer_max : Z) (product_table : gmap pk Product)
    (table table' : gmap pk CartItem) (key : pk) (owner : option pk)
    (session : option string) (product value : Z) :
  CartItemSerializer.save integer_max product_table table key owner session product value
  = Return table' →
  1 <= value <= integer_max ∧ is_Some (product_table !! product)
  ∧ CartItem_save table key {| user := owner; session_key := session;
                               cart_item_product := product; quantity := value |}
    = Return table'.
Proof.
  unfold CartItemSerializer.save.
  destruct (product_field product_table product) as [p|e] eqn:Hp; simpl; [|discriminate].
  apply product_field_Return in Hp as [-> Hp].
  destruct (quantity_field integer_max value) as [q|e] eqn:Hq; simpl; [|discriminate].
  apply quantity_field_Return in Hq as [-> Hq].
  unfold CartItemSerializer.validate_quantity.
  destruct (Z.ltb_spec value 1); [lia|]. simpl. auto.
Qed.

Lemma step_preserves (integer_max : Z) (product_table : gmap pk Product)
    (table : gmap pk CartItem) (op : Cart.operation) :
  Cart.quantities_positive table ∧ Cart.one_row_per_product table →
  Cart.quantities_positive (Cart.step integer_max product_table table op)
  ∧ Cart.one_row_per_product (Cart.step integer_max product_table table op).
Proof.
  intros [Hq Hu]. unfold Cart.step.
  destruct op as [key owner session product value | key]; simpl.
  - destruct (CartItemSerializer.save integer_max product_table table key owner session
                product value) as [table'|e] eqn:Hsave; [|auto].
    apply serializer_save_Return in Hsave as (Hv & _ & Hsave).
    refine (save_preserves table table' key _ Hq Hu _ Hsave). simpl. lia.
  - unfold CartItem_delete. split.
    + intros k r Hk. apply lookup_delete_Some in Hk as [_ Hk]. exact (Hq k r Hk).
    + intros k1 k2 r1 r2 Hne H1 H2.
      apply lookup_delete_Some in H1 as [_ H1].
      apply lookup_delete_Some in H2 as [_ H2].
      exact (Hu k1 k2 r1 r2 Hne H1 H2).
Qed.

Lemma run_preserves (integer_max : Z) (product_table : gmap pk Product)
    (ops : list Cart.operation) (table : gmap pk CartItem) :
  Cart.quantities_positive table ∧ Cart.one_row_per_product table →
  Cart.quantities_positive (Cart.run integer_max product_table ops table)
  ∧ Cart.one_row_per_product (Cart.run integer_max product_table ops table).
Proof.
  revert table. induction ops as [|op ops IH]; intros table H; [exact H|].
  simpl. apply IH, step_preserves, H.
Qed.

(** C9.  Whatever cart operations are run from an empty cart, every row
    has a quantity of at least 1 and no two rows have the same user and
    product or the same session key and product.  A write with a
    quantity below 1 is refused with a [ValidationError] and changes
    nothing: the quantity field refuses it with its own message, before
    [validate_quantity] is reached, and [validate_quantity] refuses it
    as well. *)
Theorem cart_rows_valid_and_unique :
  (∀ (integer_max : Z) (product_table : gmap pk Product) (ops : list Cart.operation),
      Cart.quantities_positive (Cart.run integer_max product_table ops ∅)
      ∧ Cart.one_row_per_product (Cart.run integer_max product_table ops ∅))
  ∧ (∀ (integer_max : Z) (product_table : gmap pk Product) (table : gmap pk CartItem)
       (key : pk) (owner : option pk) (session : option string) (product value : Z),
      value < 1 →
      (∃ detail,
          CartItemSerializer.save integer_max product_table table key owner session
            product value = Raise (ValidationError detail))
      ∧ Cart.step integer_max product_table table
          (Cart.Write key owner session product value) = table
      ∧ CartItemSerializer.validate_quantity value
        = Raise (ValidationError CartItemSerializer.msg_quantity)
      ∧ (is_Some (product_table !! product) → value <= integer_max →
         CartItemSerializer.save integer_max product_table table key owner session
           product value = Raise (ValidationError msg_min_value_1))).
Proof.
  split.
  - intros integer_max product_table ops. apply run_preserves. split.
    + intros k r Hk. rewrite lookup_empty in Hk. discriminate.
    + intros k1 k2 r1 r2 _ Hk. rewrite lookup_empty in Hk. discriminate.
  - intros integer_max product_table table key owner session product value Hv.
    assert (∃ detail,
               CartItemSerializer.save integer_max product_table table key owner session
                 product value = Raise (ValidationError detail)) as [detail Hs].
    { unfold CartItemSerializer.save, product_field, quantity_field, MinValueValidator.
      destruct (product_table !! product); simpl; [|eauto].
      destruct (Z.ltb_spec integer_max value); simpl; [eauto|].
      destruct (Z.leb_spec 1 value); simpl; [lia | eauto]. }
    split; [eauto|]. split; [unfold Cart.step; simpl; now rewrite Hs|].
    split.
    + unfold CartItemSerializer.validate_quantity.
      destruct (Z.ltb_spec value 1); [reflexivity | lia].
    + intros [row Hrow] Hmax.
      unfold CartItemSerializer.save, product_field, quantity_field, MinValueValidator.
      rewrite Hrow. simpl.
      destruct (Z.ltb_spec integer_max value); [lia|].
      destruct (Z.leb_spec 1 value); [lia | reflexivity].
Qed.

(** The statement for a cart that already holds a product of user 4 and
    receives a second row for it, then a write with quantity 0. *)
Lemma cart_rows_valid_and_unique_witness :
  let p := {| product_company := 1; sku := "A-1"; product_name := "pan";
              price := 100000; cost := 60000; category := "x";
              product_is_active := true |} in
  let products : gmap pk Product := {[ 9 := p ]} in
  let run := Cart.run 2147483647 products in
  let ops := [Cart.Write 1 (Some 4) None 9 2; Cart.Write 2 (Some 4) None 9 1;
              Cart.Write 3 None (Some "s1"%string) 9 5] in
  run ops ∅
  = {[ 1 := {| user := Some 4; session_key := None; cart_item_product := 9; quantity := 2 |};
       3 := {| user := None; session_key := Some "s1"%string; cart_item_product := 9;
               quantity := 5 |} ]}
  ∧ Cart.quantities_positive (run ops ∅)
  ∧ Cart.one_row_per_product (run ops ∅)
  ∧ 0 < 1
  ∧ CartItemSerializer.save 2147483647 products (run ops ∅) 5 (Some 4) None 9 0
    = Raise (ValidationError msg_min_value_1)
  ∧ Cart.step 2147483647 products (run ops ∅) (Cart.Write 5 (Some 4) None 9 0)
    = run ops ∅.
Proof.
  intros p products run ops.
  split; [vm_compute; reflexivity|].
  split; [exact (proj1 (proj1 cart_rows_valid_and_unique 2147483647 products ops))|].
  split; [exact (proj2 (proj1 cart_rows_valid_and_unique 2147483647 products ops))|].
  split; [lia|].
  destruct (proj2 cart_rows_valid_and_unique 2147483647 products (run ops ∅) 5 (Some 4)
              None 9 0 ltac:(lia)) as (_ & Hstep & _ & Hmsg).
  split; [|exact Hstep].
  apply Hmsg; [|lia]. unfold products. rewrite lookup_singleton_eq. eexists. reflexivity.
Defined.

End CartInvariant.

(* ===================================================================== *)
(** * The stock invariant                                                 *)
(* ===================================================================== *)

Section StockInvariant.
Import models InventoryLedger.

(** What the source itself enforces: a stock written through
    [InventorySerializer] is never negative. *)
Lemma validate_stock_nonnegative (value v : Z) :
  serializers.InventorySerializer.validate_stock value = Py.Return v → 0 <= v.
Proof.
  unfold serializers.InventorySerializer.validate_stock, MinValueValidator.
  destruct (Z.leb_spec 0 value); [intros [= <-]; assumption | discriminate].
Qed.

Lemma increment_preserves (ledger : gmap (pk * pk) Inventory) (b p : pk) (q : Z) :
  stock_nonnegative ledger → 0 <= q → stock_nonnegative (fst (increment ledger b p q)).
Proof.
  intros Hinv Hq key row. unfold increment.
  destruct (ledger !! (b, p)) as [old|] eqn:Hold; simpl; intros Hk;
    apply lookup_insert_Some in Hk as [[_ <-] | [_ Hk]]; simpl;
    try exact (Hinv key row Hk).
  - pose proof (Hinv _ _ Hold). lia.
  - exact Hq.
Qed.

Lemma decrement_preserves (ledger : gmap (pk * pk) Inventory) (b p : pk) (q : Z) :
  stock_nonnegative ledger → stock_nonnegative (fst (reserveAndDecrement ledger b p q)).
Proof.
  intros Hinv key row. unfold reserveAndDecrement.
  destruct (ledger !! (b, p)) as [old|] eqn:Hold; simpl; [|apply Hinv].
  destruct (Z.leb_spec q (stock old)); simpl; [|apply Hinv].
  intros Hk. apply lookup_insert_Some in Hk as [[_ <-] | [_ Hk]]; simpl; [lia|].
  exact (Hinv key row Hk).
Qed.

Lemma apply_preserves (ledger : gmap (pk * pk) Inventory) (op : operation) :
  stock_nonnegative ledger → 0 <= qty_of op → stock_nonnegative (fst (apply ledger op)).
Proof.
  destruct op as [b p q | b p q | b p q]; simpl; intros Hinv Hq.
  - now apply increment_preserves.
  - now apply decrement_preserves.
  - now apply increment_preserves.
Qed.

(** C3.  Over the ledger of section 4.2: after any sequence of
    increments, decrements and restores of non-negative quantities no
    stock is negative, and a decrement that asks for more than the
    current stock leaves the ledger exactly as it was and answers
    InsufficientStock with the shortfall. *)
Theorem stock_never_negative :
  (∀ (ops : list operation) (ledger : gmap (pk * pk) Inventory),
      stock_nonnegative ledger →
      Forall (fun op => 0 <= qty_of op) ops →
      stock_nonnegative (run ops ledger))
  ∧ (∀ (ledger : gmap (pk * pk) Inventory) (b p : pk) (q : Z) (row : Inventory),
      ledger !! (b, p) = Some row →
      stock row < q →
      reserveAndDecrement ledger b p q = (ledger, InsufficientStock (q - stock row))).
Proof.
  split.
  - intros ops. induction ops as [|op ops IH]; intros ledger Hinv Hops; [exact Hinv|].
    inversion Hops as [|? ? Hop Hrest]; subst. simpl.
    apply IH; [|exact Hrest]. now apply apply_preserves.
  - intros ledger b p q row Hrow Hlt. unfold reserveAndDecrement. rewrite Hrow.
    destruct (Z.leb_spec q (stock row)); [lia | reflexivity].
Qed.

(** A first receipt of 7 units, then sales of 5 and 5, then a restore
    of 5: the second sale is refused, the stock is 2 and then 7. *)
Lemma stock_never_negative_witness :
  let ops := [Increment 1 9 7; Decrement 1 9 5; Decrement 1 9 5; Restore 1 9 5] in
  let row := {| inventory_branch := 1; inventory_product := 9; stock := 2;
                reorder_point := 5 |} in
  stock_nonnegative ∅
  ∧ Forall (fun op => 0 <= qty_of op) ops
  ∧ stock <$> (run ops ∅ !! (1, 9)) = Some 7
  ∧ stock_nonnegative (run ops ∅)
  ∧ ({[ (1, 9) := row ]} : gmap (pk * pk) Inventory) !! (1, 9) = Some row
  ∧ stock row < 5
  ∧ reserveAndDecrement {[ (1, 9) := row ]} 1 9 5
    = ({[ (1, 9) := row ]}, InsufficientStock 3).
Proof.
  intros ops row.
  assert (stock_nonnegative ∅) as Hempty
    by (intros key r Hk; rewrite lookup_empty in Hk; discriminate).
  assert (Forall (fun op => 0 <= qty_of op) ops) as Hops
    by (repeat constructor; simpl; lia).
  assert (({[ (1, 9) := row ]} : gmap (pk * pk) Inventory) !! (1, 9) = Some row) as Hrow
    by apply lookup_singleton_eq.
  split; [exact Hempty|]. split; [exact Hops|].
  split; [vm_compute; reflexivity|].
  split; [exact (proj1 stock_never_negative ops ∅ Hempty Hops)|].
  split; [exact Hrow|]. split; [simpl; lia|].
  exact (proj2 stock_never_negative {[ (1, 9) := row ]} 1 9 5 row Hrow ltac:(simpl; lia)).
Defined.

End StockInvariant.

(* ===================================================================== *)
(** * Further properties of the validator                                 *)
(* ===================================================================== *)

Section ValidatorOutcomes.
Import Py validators.

Lemma check_character_alphabet (dv : Z) :
  1 <= dv <= 11 →
  ∃ d, Reference.check_character dv = [d] ∧ In d (lit "0123456789K").
Proof.
  intros H.
  assert (dv = 1 ∨ dv = 2 ∨ dv = 3 ∨ dv = 4 ∨ dv = 5 ∨ dv = 6 ∨ dv = 7 ∨ dv = 8
          ∨ dv = 9 ∨ dv = 10 ∨ dv = 11) as Hc by lia.
  repeat (destruct Hc as [-> | Hc];
          [eexists; split; [reflexivity | vm_compute; tauto]|]).
  subst. eexists; split; [reflexivity | vm_compute; tauto].
Qed.

(** Different values between 1 and 11 give different check characters. *)
Lemma check_character_inj (x y : Z) :
  1 <= x <= 11 → 1 <= y <= 11 →
  Reference.check_character x = Reference.check_character y → x = y.
Proof.
  intros Hx Hy. unfold Reference.check_character.
  destruct (Z.eqb_spec x 10) as [->|Hx10]; destruct (Z.eqb_spec y 10) as [->|Hy10];
    try reflexivity;
    try (destruct (Z.eqb_spec y 11) as [->|Hy11]);
    try (destruct (Z.eqb_spec x 11) as [->|Hx11]);
    try reflexivity; vm_compute lit; intros [= E]; lia.
Qed.

Lemma calculate_dv_cases (body : pystr) :
  match calculate_dv body with
  | Return s =>
      forallb Unicode.isdecimal body = true
      ∧ ∃ d, s = [d] ∧ In d (lit "0123456789K")
  | Raise e => e = ValueError ∧ forallb Unicode.isdecimal body = false
  end.
Proof.
  destruct (forallb Unicode.isdecimal body) eqn:Hd.
  - rewrite (calculate_dv_decimal body Hd). split; [reflexivity|].
    pose proof (Z.mod_pos_bound (Reference.body_sum body) 11 ltac:(lia)) as Hm.
    destruct (check_character_alphabet (11 - Reference.body_sum body mod 11) ltac:(lia))
      as [d [Hc Hin]].
    exists d. split; assumption.
  - rewrite (calculate_dv_not_decimal body Hd). split; reflexivity.
Qed.

(** [calculate_dv] has two outcomes only.  On a body of decimal digits it
    returns one character, a digit or K; on any other body it raises
    [ValueError].  It never returns the empty string that its [except]
    branch announces. *)
Theorem calculate_dv_outcomes (body : pystr) :
  match calculate_dv body with
  | Return s =>
      forallb Unicode.isdecimal body = true
      ∧ ∃ d, s = [d] ∧ In d (lit "0123456789K")
  | Raise e => e = ValueError ∧ forallb Unicode.isdecimal body = false
  end.
Proof. exact (calculate_dv_cases body). Qed.

(** When the validator returns, it returns its argument. *)
Lemma validate_returns_input (value r : pystr) :
  validate_chilean_rut value = Return r → r = value.
Proof.
  unfold validate_chilean_rut.
  destruct (length (clean_rut value) <? 2)%nat; [discriminate|].
  destruct (negb (isdigit (removelast (clean_rut value)))); [discriminate|].
  destruct (calculate_dv (removelast (clean_rut value))) as [dv|e]; simpl; [|discriminate].
  destruct (decide _); [now intros [= <-] | discriminate].
Qed.

(** A string of at least two characters is a body and a last character. *)
Lemma split_last (s : pystr) :
  (2 <= length s)%nat → ∃ body c, s = body ++ [c] ∧ body ≠ [].
Proof.
  intros Hlen. destruct (exists_last (l := s)) as [body [c ->]].
  - intros ->. simpl in Hlen. lia.
  - exists body, c. split; [reflexivity|]. intros ->. simpl in Hlen. lia.
Qed.

Lemma validate_accepts_cleaned (value : pystr) :
  validate_chilean_rut value = Return value
  ↔ ∃ body c, clean_rut value = body ++ [c]
              ∧ isdecimal body = true
              ∧ calculate_dv body = Return [c].
Proof.
  split.
  - intros Hv. unfold validate_chilean_rut in Hv.
    destruct (Nat.ltb_spec (length (clean_rut value)) 2) as [|Hlen]; [discriminate|].
    destruct (split_last (clean_rut value) Hlen) as [body [c [Hclean Hne]]].
    rewrite Hclean, last_last, removelast_last in Hv.
    destruct (isdigit body) eqn:Hdig; simpl in Hv; [|discriminate].
    pose proof (calculate_dv_cases body) as Hout.
    destruct (calculate_dv body) as [dv|e] eqn:Hdv; simpl in Hv; [|discriminate].
    destruct (decide (dv = [c])) as [->|]; [|discriminate].
    exists body, c. split; [exact Hclean|]. split; [|exact Hdv].
    destruct body; [congruence|]. apply Hout.
  - intros [body [c [Hclean [Hdec Hdv]]]].
    destruct (isdecimal_str_inv body Hdec) as [Hne _].
    rewrite (validate_split value body c Hclean Hne).
    rewrite (isdecimal_str_isdigit body Hdec), Hdv. simpl.
    destruct (decide ([c] = [c])); [reflexivity | congruence].
Qed.

(** The inputs the validator accepts: those whose cleaned form is a
    non-empty body of decimal digits followed by the check character of
    that body.  The answer is then the input itself. *)
Theorem validate_accepts_iff (value : pystr) :
  validate_chilean_rut value = Return value
  ↔ ∃ body c, clean_rut value = body ++ [c]
              ∧ isdecimal body = true
              ∧ calculate_dv body = Return [c].
Proof. exact (validate_accepts_cleaned value). Qed.

(** Two inputs with the same cleaned form are accepted together or
    refused together: dots, dashes, surrounding white space and letter
    case do not matter. *)
Theorem validate_ignores_format (v1 v2 : pystr) :
  clean_rut v1 = clean_rut v2 →
  (validate_chilean_rut v1 = Return v1 ↔ validate_chilean_rut v2 = Return v2).
Proof.
  intros H. rewrite !validate_accepts_cleaned, H. reflexivity.
Qed.

Lemma validate_ignores_format_witness :
  clean_rut (lit " 76.086.428-5") = clean_rut (lit "760864285")
  ∧ (validate_chilean_rut (lit " 76.086.428-5") = Return (lit " 76.086.428-5")
     ↔ validate_chilean_rut (lit "760864285") = Return (lit "760864285")).
Proof.
  split; [vm_compute; reflexivity|].
  apply (validate_ignores_format (lit " 76.086.428-5") (lit "760864285")).
  vm_compute. reflexivity.
Defined.

End ValidatorOutcomes.

(* ===================================================================== *)
(** * What the check digit detects                                        *)
(* ===================================================================== *)

Section ErrorDetection.
Import Py validators.

Lemma weighted_sum_app (i : nat) (l1 l2 : list Z) :
  Reference.weighted_sum i (l1 ++ l2)
  = Reference.weighted_sum i l1 + Reference.weighted_sum (i + length l1) l2.
Proof.
  revert i. induction l1 as [|d l1 IH]; intros i; simpl.
  - now rewrite Nat.add_0_r.
  - rewrite IH, Nat.add_succ_r. simpl. lia.
Qed.

Lemma digit_value_range (c : N) :
  Unicode.isdecimal c = true → 0 <= Reference.digit_value c <= 9.
Proof.
  unfold Unicode.isdecimal, Reference.digit_value.
  destruct (Unicode.todecimal c) as [d|] eqn:Hd; [|discriminate].
  intros _. simpl. exact (todecimal_range c d Hd).
Qed.

(** The sum of a body around one of its digits. *)
Lemma body_sum_at (pre post : pystr) (a : N) :
  Reference.body_sum (pre ++ a :: post)
  = Reference.weighted_sum 0 (List.map Reference.digit_value (rev post))
    + Reference.digit_value a * Reference.weight (length post)
    + Reference.weighted_sum (S (length post))
        (List.map Reference.digit_value (rev pre)).
Proof.
  unfold Reference.body_sum.
  rewrite rev_app_distr. simpl. rewrite <- app_assoc. simpl.
  rewrite map_app, weighted_sum_app. simpl.
  rewrite length_map, length_rev. simpl. lia.
Qed.

(** A multiple of 11 that is a product of a weight and a difference of
    two digits is zero. *)
Lemma weight_times_difference (w d k : Z) :
  2 <= w <= 7 → -9 <= d <= 9 → w * d = 11 * k → d = 0.
Proof.
  intros Hw Hd H.
  assert (w = 2 ∨ w = 3 ∨ w = 4 ∨ w = 5 ∨ w = 6 ∨ w = 7) as Hc by lia.
  repeat (destruct Hc as [-> | Hc]; [lia|]). subst. lia.
Qed.

Lemma same_remainder (x y : Z) : x mod 11 = y mod 11 → ∃ k, x - y = 11 * k.
Proof.
  intros H. exists (x / 11 - y / 11).
  pose proof (Z.div_mod x 11 ltac:(lia)). pose proof (Z.div_mod y 11 ltac:(lia)). lia.
Qed.

Lemma forallb_isdecimal_middle (pre post : pystr) (a : N) :
  forallb Unicode.isdecimal (pre ++ a :: post) = true
  ↔ forallb Unicode.isdecimal pre = true ∧ Unicode.isdecimal a = true
    ∧ forallb Unicode.isdecimal post = true.
Proof. rewrite forallb_app. simpl. rewrite !andb_true_iff. tauto. Qed.

(** Replacing one digit of a body by a digit of another value changes the
    check character. *)
Lemma substitution_changes_dv (pre post : pystr) (a b : N) :
  forallb Unicode.isdecimal (pre ++ a :: post) = true →
  Unicode.isdecimal b = true →
  Reference.digit_value a ≠ Reference.digit_value b →
  calculate_dv (pre ++ a :: post) ≠ calculate_dv (pre ++ b :: post).
Proof.
  intros Ha Hb Hne.
  assert (forallb Unicode.isdecimal (pre ++ b :: post) = true) as Hb'.
  { apply forallb_isdecimal_middle. apply forallb_isdecimal_middle in Ha. tauto. }
  apply forallb_isdecimal_middle in Ha as Hparts. destruct Hparts as (_ & Hda & _).
  rewrite (calculate_dv_decimal _ Ha), (calculate_dv_decimal _ Hb').
  intros [= Heq].
  pose proof (Z.mod_pos_bound (Reference.body_sum (pre ++ a :: post)) 11 ltac:(lia)).
  pose proof (Z.mod_pos_bound (Reference.body_sum (pre ++ b :: post)) 11 ltac:(lia)).
  apply check_character_inj in Heq; [|lia|lia].
  assert (Reference.body_sum (pre ++ a :: post) mod 11
          = Reference.body_sum (pre ++ b :: post) mod 11) as Hmod by lia.
  apply same_remainder in Hmod as [k Hk].
  rewrite !body_sum_at in Hk.
  pose proof (weight_range (length post)) as Hw.
  pose proof (digit_value_range a Hda). pose proof (digit_value_range b Hb).
  apply Hne.
  assert (Reference.digit_value a - Reference.digit_value b = 0); [|lia].
  apply (weight_times_difference (Reference.weight (length post)) _ k); [lia|lia|lia].
Qed.

(** Consecutive weights differ by 1, or by 5 where the cycle restarts. *)
Lemma weight_step (i : nat) :
  Reference.weight (S i) - Reference.weight i = 1
  ∨ Reference.weight (S i) - Reference.weight i = -5.
Proof.
  pose proof (weight_next i) as Hn. pose proof (weight_range i) as Hr.
  destruct (Z.ltb_spec 7 (Reference.weight i + 1)); lia.
Qed.

Lemma body_sum_at_pair (pre post : pystr) (a b : N) :
  Reference.body_sum (pre ++ a :: b :: post)
  = Reference.weighted_sum 0 (List.map Reference.digit_value (rev post))
    + Reference.digit_value b * Reference.weight (length post)
    + Reference.digit_value a * Reference.weight (S (length post))
    + Reference.weighted_sum (S (S (length post)))
        (List.map Reference.digit_value (rev pre)).
Proof.
  change (pre ++ a :: b :: post) with (pre ++ [a] ++ b :: post).
  rewrite app_assoc, body_sum_at.
  rewrite rev_app_distr. simpl. lia.
Qed.

(** Exchanging two neighbouring digits of different values changes the
    check character. *)
Lemma transposition_changes_dv (pre post : pystr) (a b : N) :
  forallb Unicode.isdecimal (pre ++ a :: b :: post) = true →
  Reference.digit_value a ≠ Reference.digit_value b →
  calculate_dv (pre ++ a :: b :: post) ≠ calculate_dv (pre ++ b :: a :: post).
Proof.
  intros Hab Hne.
  assert (forallb Unicode.isdecimal pre = true ∧ Unicode.isdecimal a = true
          ∧ Unicode.isdecimal b = true ∧ forallb Unicode.isdecimal post = true)
    as (Hpre & Hda & Hdb & Hpost).
  { rewrite forallb_app in Hab. simpl in Hab. rewrite !andb_true_iff in Hab. tauto. }
  assert (forallb Unicode.isdecimal (pre ++ b :: a :: post) = true) as Hba.
  { rewrite forallb_app. simpl. rewrite !andb_true_iff. tauto. }
  rewrite (calculate_dv_decimal _ Hab), (calculate_dv_decimal _ Hba).
  intros [= Heq].
  pose proof (Z.mod_pos_bound (Reference.body_sum (pre ++ a :: b :: post)) 11 ltac:(lia)).
  pose proof (Z.mod_pos_bound (Reference.body_sum (pre ++ b :: a :: post)) 11 ltac:(lia)).
  apply check_character_inj in Heq; [|lia|lia].
  assert (Reference.body_sum (pre ++ a :: b :: post) mod 11
          = Reference.body_sum (pre ++ b :: a :: post) mod 11) as Hmod by lia.
  apply same_remainder in Hmod as [k Hk].
  rewrite !body_sum_at_pair in Hk.
  pose proof (digit_value_range a Hda). pose proof (digit_value_range b Hdb).
  apply Hne.
  assert (Reference.digit_value a - Reference.digit_value b = 0); [|lia].
  destruct (weight_step (length post)) as [Hs|Hs].
  - assert (Reference.weight (S (length post)) = Reference.weight (length post) + 1)
      as Hw by lia.
    rewrite Hw in Hk. lia.
  - assert (Reference.weight (S (length post)) = Reference.weight (length post) - 5)
      as Hw by lia.
    rewrite Hw in Hk.
    apply (weight_times_difference 5 _ (- k)); lia.
Qed.

End ErrorDetection.

Section MistypedDigits.
Import Py validators.

Lemma accepted_body (value body : pystr) (c : N) :
  clean_rut value = body ++ [c] →
  validate_chilean_rut value = Return value →
  forallb Unicode.isdecimal body = true ∧ body ≠ [] ∧ calculate_dv body = Return [c].
Proof.
  intros Hclean Hv.
  apply validate_accepts_cleaned in Hv as [body' [c' [Hclean' [Hdec Hdv]]]].
  rewrite Hclean in Hclean'. apply app_inj_tail in Hclean' as [<- <-].
  destruct (isdecimal_str_inv body Hdec). auto.
Qed.

Lemma wrong_dv_rejected (value body : pystr) (c d : N) :
  clean_rut value = body ++ [c] → body ≠ [] →
  forallb Unicode.isdecimal body = true →
  calculate_dv body = Return [d] → d ≠ c →
  validate_chilean_rut value = Raise (ValidationError (msg_wrong_dv value [d])).
Proof.
  intros Hclean Hne Hdec Hdv Hdc.
  rewrite (validate_split value body c Hclean Hne).
  assert (isdigit body = true) as ->.
  { apply isdecimal_str_isdigit. destruct body; [congruence | exact Hdec]. }
  rewrite Hdv. simpl. destruct (decide ([d] = [c])) as [[= ->]|]; [congruence | reflexivity].
Qed.

(** One mistyped digit is always caught: if an input is accepted, an
    input that differs from it in one digit of the body, replaced by a
    digit of another value, is refused with the checksum error. *)
Theorem single_digit_error_detected (v1 v2 pre post : pystr) (a b c : N) :
  clean_rut v1 = (pre ++ a :: post) ++ [c] →
  clean_rut v2 = (pre ++ b :: post) ++ [c] →
  Unicode.isdecimal b = true →
  Reference.digit_value a ≠ Reference.digit_value b →
  validate_chilean_rut v1 = Return v1 →
  ∃ d, d ≠ c
       ∧ validate_chilean_rut v2 = Raise (ValidationError (msg_wrong_dv v2 [d])).
Proof.
  intros H1 H2 Hb Hne Hv1.
  destruct (accepted_body v1 _ c H1 Hv1) as (Hdec & _ & Hdv).
  assert (forallb Unicode.isdecimal (pre ++ b :: post) = true) as Hdec'.
  { apply forallb_isdecimal_middle. apply forallb_isdecimal_middle in Hdec. tauto. }
  pose proof (calculate_dv_cases (pre ++ b :: post)) as Hout.
  destruct (calculate_dv (pre ++ b :: post)) as [s|e] eqn:Hdv';
    [|destruct Hout; congruence].
  destruct Hout as [_ [d [-> _]]].
  assert (d ≠ c) as Hdc.
  { intros ->. apply (substitution_changes_dv pre post a b Hdec Hb Hne). congruence. }
  exists d. split; [exact Hdc|].
  apply (wrong_dv_rejected v2 (pre ++ b :: post) c d); auto.
  destruct pre; discriminate.
Qed.

Lemma single_digit_error_detected_witness :
  clean_rut (lit "76.086.428-5") = (lit "7608642" ++ 56%N :: []) ++ [53%N]
  ∧ clean_rut (lit "76.086.429-5") = (lit "7608642" ++ 57%N :: []) ++ [53%N]
  ∧ Unicode.isdecimal 57 = true
  ∧ Reference.digit_value 56 ≠ Reference.digit_value 57
  ∧ validate_chilean_rut (lit "76.086.428-5") = Return (lit "76.086.428-5")
  ∧ ∃ d, d ≠ 53%N
         ∧ validate_chilean_rut (lit "76.086.429-5")
           = Raise (ValidationError (msg_wrong_dv (lit "76.086.429-5") [d])).
Proof.
  assert (Reference.digit_value 56 ≠ Reference.digit_value 57) as Hne
    by (vm_compute; discriminate).
  split; [vm_compute; reflexivity|]. split; [vm_compute; reflexivity|].
  split; [vm_compute; reflexivity|]. split; [exact Hne|].
  split; [vm_compute; reflexivity|].
  apply (single_digit_error_detected (lit "76.086.428-5") (lit "76.086.429-5")
           (lit "7608642") [] 56%N 57%N 53%N);
    [vm_compute; reflexivity | vm_compute; reflexivity | vm_compute; reflexivity
    | exact Hne | vm_compute; reflexivity].
Defined.

(** Two neighbouring digits typed in the wrong order are always caught:
    if an input is accepted, the input with two adjacent body digits of
    different values exchanged is refused with the checksum error. *)
Theorem transposition_error_detected (v1 v2 pre post : pystr) (a b c : N) :
  clean_rut v1 = (pre ++ a :: b :: post) ++ [c] →
  clean_rut v2 = (pre ++ b :: a :: post) ++ [c] →
  Reference.digit_value a ≠ Reference.digit_value b →
  validate_chilean_rut v1 = Return v1 →
  ∃ d, d ≠ c
       ∧ validate_chilean_rut v2 = Raise (ValidationError (msg_wrong_dv v2 [d])).
Proof.
  intros H1 H2 Hne Hv1.
  destruct (accepted_body v1 _ c H1 Hv1) as (Hdec & _ & Hdv).
  assert (forallb Unicode.isdecimal (pre ++ b :: a :: post) = true) as Hdec'.
  { rewrite forallb_app in Hdec |- *. simpl in Hdec |- *.
    rewrite !andb_true_iff in Hdec |- *. tauto. }
  pose proof (calculate_dv_cases (pre ++ b :: a :: post)) as Hout.
  destruct (calculate_dv (pre ++ b :: a :: post)) as [s|e] eqn:Hdv';
    [|destruct Hout; congruence].
  destruct Hout as [_ [d [-> _]]].
  assert (d ≠ c) as Hdc.
  { intros ->. apply (transposition_changes_dv pre post a b Hdec Hne). congruence. }
  exists d. split; [exact Hdc|].
  apply (wrong_dv_rejected v2 (pre ++ b :: a :: post) c d); auto.
  destruct pre; discriminate.
Qed.

Lemma transposition_error_detected_witness :
  clean_rut (lit "76086428-5") = (lit "760864" ++ 50%N :: 56%N :: []) ++ [53%N]
  ∧ clean_rut (lit "76086482-5") = (lit "760864" ++ 56%N :: 50%N :: []) ++ [53%N]
  ∧ Reference.digit_value 50 ≠ Reference.digit_value 56
  ∧ validate_chilean_rut (lit "76086428-5") = Return (lit "76086428-5")
  ∧ ∃ d, d ≠ 53%N
         ∧ validate_chilean_rut (lit "76086482-5")
           = Raise (ValidationError (msg_wrong_dv (lit "76086482-5") [d])).
Proof.
  assert (Reference.digit_value 50 ≠ Reference.digit_value 56) as Hne
    by (vm_compute; discriminate).
  split; [vm_compute; reflexivity|]. split; [vm_compute; reflexivity|].
  split; [exact Hne|]. split; [vm_compute; reflexivity|].
  apply (transposition_error_detected (lit "76086428-5") (lit "76086482-5")
           (lit "760864") [] 50%N 56%N 53%N);
    [vm_compute; reflexivity | vm_compute; reflexivity | exact Hne
    | vm_compute; reflexivity].
Defined.

(** Dots, dashes and white space alone are not a RUT: an input made of
    nothing else, the empty string included, is refused as too short. *)
Theorem blank_input_too_short (value : pystr) :
  forallb (fun c => Unicode.isspace c || (c =? 46)%N || (c =? 45)%N) value = true →
  validate_chilean_rut value = Raise (ValidationError msg_too_short).
Proof.
  intros H.
  assert (clean_rut value = []) as Hclean.
  { unfold clean_rut.
    assert (lstrip (re_sub_dot_dash value) = []) as Hl.
    { unfold re_sub_dot_dash. induction value as [|c value IH]; [reflexivity|].
      simpl in H. apply andb_true_iff in H as [Hc Hrest]. simpl.
      destruct ((c =? 46)%N || (c =? 45)%N) eqn:Hdd; simpl; [exact (IH Hrest)|].
      rewrite <- orb_assoc, Hdd, orb_false_r in Hc. rewrite Hc. exact (IH Hrest). }
    unfold strip. rewrite Hl. reflexivity. }
  unfold validate_chilean_rut. rewrite Hclean. reflexivity.
Qed.

Lemma blank_input_too_short_witness :
  forallb (fun c => Unicode.isspace c || (c =? 46)%N || (c =? 45)%N) (lit " .-. ") = true
  ∧ validate_chilean_rut (lit " .-. ") = Raise (ValidationError msg_too_short).
Proof.
  split; [vm_compute; reflexivity|].
  apply (blank_input_too_short (lit " .-. ")). vm_compute. reflexivity.
Defined.

(** The cleaned form of any string has no dot and no dash, neither starts
    nor ends with white space, and is unchanged by upper-casing. *)
Theorem clean_rut_normal_form (x : pystr) :
  (∀ c, In c (clean_rut x) → c ≠ 46%N ∧ c ≠ 45%N)
  ∧ starts_clean (clean_rut x)
  ∧ starts_clean (rev (clean_rut x))
  ∧ upper (clean_rut x) = clean_rut x.
Proof.
  split; [|split; [|split]].
  - intros c Hc. apply clean_rut_no_dot_dash in Hc.
    apply negb_true_iff, orb_false_iff in Hc as [H1 H2].
    apply N.eqb_neq in H1, H2. auto.
  - apply upper_starts_clean, strip_starts_clean.
  - apply upper_ends_clean, strip_ends_clean.
  - apply upper_upper.
Qed.

End MistypedDigits.

Lemma clean_rut_normal_form_witness :
  In 75%N (Py.upper (Py.strip (Py.re_sub_dot_dash (Py.lit " 12.345.678-k "))))
  ∧ 75%N ≠ 46%N ∧ 75%N ≠ 45%N.
Proof.
  assert (In 75%N (validators.clean_rut (Py.lit " 12.345.678-k "))) as Hin
    by (vm_compute; tauto).
  split; [exact Hin|].
  exact (proj1 (clean_rut_normal_form (Py.lit " 12.345.678-k ")) 75%N Hin).
Defined.

(* ===================================================================== *)
(** * The serializer hooks around the validator                           *)
(* ===================================================================== *)

Section RutHooks.
Import Py validators serializers.

(** The validator raises nothing but [ValidationError] and
    [ValueError]. *)
Lemma validate_raises (value : pystr) (e : exn) :
  validate_chilean_rut value = Raise e →
  e = ValueError ∨ ∃ detail, e = ValidationError detail.
Proof.
  unfold validate_chilean_rut.
  destruct (length (clean_rut value) <? 2)%nat; [intros [= <-]; eauto|].
  destruct (negb (isdigit (removelast (clean_rut value)))); [intros [= <-]; eauto|].
  pose proof (calculate_dv_cases (removelast (clean_rut value))) as Hout.
  destruct (calculate_dv (removelast (clean_rut value))) as [dv|e']; simpl.
  - destruct (decide _); [discriminate | intros [= <-]; eauto].
  - intros [= <-]. left. apply Hout.
Qed.

(** The [validate_rut] hooks of the user, company and supplier
    serializers let [ValueError] through, exactly for the inputs whose
    cleaned body passes [isdigit] although one of its characters is not
    a decimal digit; their [except] clause does not apply to it. *)
Theorem validate_rut_hooks_leak_ValueError (exception_str : pystr → pystr)
    (value body : pystr) (c : N) :
  clean_rut value = body ++ [c] →
  (isdigit body = true ∧ forallb Unicode.isdecimal body = false)
  ↔ (UserSerializer.validate_rut exception_str value = Uncaught ValueError
     ∧ CompanySerializer.validate_rut exception_str value = Uncaught ValueError
     ∧ SupplierSerializer.validate_rut exception_str value = Uncaught ValueError).
Proof.
  intros Hclean. rewrite <- (validate_ValueError_iff value body c Hclean).
  unfold UserSerializer.validate_rut, CompanySerializer.validate_rut,
    SupplierSerializer.validate_rut.
  destruct (validate_chilean_rut value) as [v|[detail| |]] eqn:Hv.
  - split; [discriminate | intros [[=] _]].
  - split; [discriminate | intros [[=] _]].
  - tauto.
  - split; [discriminate | intros [[=] _]].
Qed.

Lemma validate_rut_hooks_leak_ValueError_witness :
  clean_rut [178%N; 53%N] = [178%N] ++ [53%N]
  ∧ ((isdigit [178%N] = true ∧ forallb Unicode.isdecimal [178%N] = false)
     ↔ (UserSerializer.validate_rut (fun d => d) [178%N; 53%N] = Uncaught ValueError
        ∧ CompanySerializer.validate_rut (fun d => d) [178%N; 53%N] = Uncaught ValueError
        ∧ SupplierSerializer.validate_rut (fun d => d) [178%N; 53%N]
          = Uncaught ValueError)).
Proof.
  split; [vm_compute; reflexivity|].
  apply (validate_rut_hooks_leak_ValueError (fun d => d) [178%N; 53%N] [178%N] 53%N).
  vm_compute. reflexivity.
Defined.

(** Apart from that, the three hooks answer alike: the input itself when
    the validator accepts it, and otherwise an error filed under the key
    [rut]; no other exception leaves them. *)
Theorem validate_rut_hooks_answers (exception_str : pystr → pystr) (value : pystr) :
  CompanySerializer.validate_rut exception_str value
  = UserSerializer.validate_rut exception_str value
  ∧ SupplierSerializer.validate_rut exception_str value
    = UserSerializer.validate_rut exception_str value
  ∧ match UserSerializer.validate_rut exception_str value with
    | Accepted v => v = value ∧ validate_chilean_rut value = Return value
    | FieldError field detail =>
        field = "rut"%string
        ∧ ∃ m, validate_chilean_rut value = Raise (ValidationError m)
               ∧ detail = exception_str m
    | Uncaught e => e = ValueError
    end.
Proof.
  split; [reflexivity|]. split; [reflexivity|].
  unfold UserSerializer.validate_rut.
  destruct (validate_chilean_rut value) as [v|e] eqn:Hv.
  - apply validate_returns_input in Hv as Heq. subst v. auto.
  - destruct (validate_raises value e Hv) as [-> | [detail ->]]; [reflexivity|].
    split; [reflexivity|]. exists detail. auto.
Qed.

End RutHooks.

(* ===================================================================== *)
(** * Subscription dates                                                  *)
(* ===================================================================== *)

Section SubscriptionDates.
Import Py models serializers.

(** When a request carries both dates, [validate] accepts it exactly if
    the end is after the start, and the subscription it is then saved
    into ends after it starts. *)
Theorem subscription_full_update_ordered (instance : Subscription)
    (data : SubscriptionSerializer.attrs) (s e : Z) :
  SubscriptionSerializer.attrs_start_date data = Some s →
  SubscriptionSerializer.attrs_end_date data = Some e →
  (SubscriptionSerializer.validate data = Accepted data ↔ s < e)
  ∧ (e <= s →
     SubscriptionSerializer.validate data
     = FieldError "end_date" SubscriptionSerializer.msg_end_date)
  ∧ (SubscriptionSerializer.validate data = Accepted data →
     start_date (SubscriptionSerializer.update instance data)
     < end_date (SubscriptionSerializer.update instance data)).
Proof.
  intros Hs He. unfold SubscriptionSerializer.validate, SubscriptionSerializer.update.
  rewrite Hs, He. simpl.
  destruct (Z.leb_spec e s); repeat split; try discriminate; try lia; auto.
Qed.

Lemma subscription_full_update_ordered_witness :
  let instance := {| subscription_company := 1; plan_name := "BASICO";
                     start_date := 100; end_date := 130; active := true |} in
  let data := {| SubscriptionSerializer.attrs_company := None;
                 SubscriptionSerializer.attrs_plan_name := None;
                 SubscriptionSerializer.attrs_start_date := Some 200;
                 SubscriptionSerializer.attrs_end_date := Some 230;
                 SubscriptionSerializer.attrs_active := None |} in
  SubscriptionSerializer.validate data = Accepted data
  ∧ start_date (SubscriptionSerializer.update instance data)
    < end_date (SubscriptionSerializer.update instance data).
Proof.
  intros instance data.
  destruct (subscription_full_update_ordered instance data 200 230 eq_refl eq_refl)
    as (H1 & _ & H3).
  assert (SubscriptionSerializer.validate data = Accepted data) as Hv
    by (apply H1; lia).
  split; [exact Hv | exact (H3 Hv)].
Defined.

(** A request that carries only one of the two dates is never refused,
    so a partial update may leave a subscription that ends on or before
    the day it starts. *)
Theorem subscription_partial_update_unchecked (instance : Subscription)
    (data : SubscriptionSerializer.attrs) (e : Z) :
  SubscriptionSerializer.attrs_start_date data = None →
  SubscriptionSerializer.attrs_end_date data = Some e →
  SubscriptionSerializer.validate data = Accepted data
  ∧ start_date (SubscriptionSerializer.update instance data) = start_date instance
  ∧ end_date (SubscriptionSerializer.update instance data) = e.
Proof.
  intros Hs He. unfold SubscriptionSerializer.validate, SubscriptionSerializer.update.
  rewrite Hs, He. simpl. auto.
Qed.

Lemma subscription_partial_update_unchecked_witness :
  let instance := {| subscription_company := 1; plan_name := "BASICO";
                     start_date := 100; end_date := 130; active := true |} in
  let data := {| SubscriptionSerializer.attrs_company := None;
                 SubscriptionSerializer.attrs_plan_name := None;
                 SubscriptionSerializer.attrs_start_date := None;
                 SubscriptionSerializer.attrs_end_date := Some 50;
                 SubscriptionSerializer.attrs_active := None |} in
  SubscriptionSerializer.validate data = Accepted data
  ∧ start_date (SubscriptionSerializer.update instance data) = 100
  ∧ end_date (SubscriptionSerializer.update instance data) = 50.
Proof.
  intros instance data.
  exact (subscription_partial_update_unchecked instance data 50 eq_refl eq_refl).
Defined.

End SubscriptionDates.

(* ===================================================================== *)
(** * Passwords of users                                                  *)
(* ===================================================================== *)

Section UserPasswords.
Import Py models serializers.

Variable make_password : pyval → pyval.

(** [create] never stores the password it receives: with a non-empty
    password the user holds its hash, with an empty or missing one the
    column keeps its default; every other validated field reaches the
    user as it is. *)
Theorem user_create_password (User_defaults validated_data : gmap string pyval) :
  (∀ p, validated_data !! "password"%string = Some p → truthy p = true →
        UserSerializer.create make_password User_defaults validated_data
          !! "password"%string = Some (make_password p))
  ∧ (∀ p, validated_data !! "password"%string = Some p → truthy p = false →
          UserSerializer.create make_password User_defaults validated_data
            !! "password"%string = User_defaults !! "password"%string)
  ∧ (validated_data !! "password"%string = None →
     UserSerializer.create make_password User_defaults validated_data
       !! "password"%string = User_defaults !! "password"%string)
  ∧ (∀ f v, f ≠ "password"%string → validated_data !! f = Some v →
            UserSerializer.create make_password User_defaults validated_data !! f
            = Some v).
Proof.
  unfold UserSerializer.create.
  assert (∀ m : gmap string pyval,
             (delete "password"%string validated_data ∪ m) !! "password"%string
             = m !! "password"%string) as Hpw.
  { intros m. apply lookup_union_r, lookup_delete_eq. }
  assert (∀ (m : gmap string pyval) f v,
             f ≠ "password"%string → validated_data !! f = Some v →
             (delete "password"%string validated_data ∪ m) !! f = Some v) as Hother.
  { intros m f v Hf Hv. apply lookup_union_Some_l. now rewrite lookup_delete_ne. }
  repeat split.
  - intros p Hp Ht. rewrite Hp, Ht. apply lookup_insert_eq.
  - intros p Hp Ht. rewrite Hp, Ht. apply Hpw.
  - intros Hp. rewrite Hp. apply Hpw.
  - intros f v Hf Hv.
    destruct (validated_data !! "password"%string) as [p|]; [|now apply Hother].
    destruct (truthy p); [|now apply Hother].
    rewrite lookup_insert_ne by congruence. now apply Hother.
Qed.

(** [update] without a password, or with an empty one, keeps the stored
    password; with a non-empty one it stores the hash.  A validated
    field replaces the stored one, and a field that is not in the
    request stays. *)
Theorem user_update_password (instance validated_data : gmap string pyval) :
  (∀ p, validated_data !! "password"%string = Some p → truthy p = true →
        UserSerializer.update make_password instance validated_data
          !! "password"%string = Some (make_password p))
  ∧ (∀ p, validated_data !! "password"%string = Some p → truthy p = false →
          UserSerializer.update make_password instance validated_data
            !! "password"%string = instance !! "password"%string)
  ∧ (validated_data !! "password"%string = None →
     UserSerializer.update make_password instance validated_data
       !! "password"%string = instance !! "password"%string)
  ∧ (∀ f v, f ≠ "password"%string → validated_data !! f = Some v →
            UserSerializer.update make_password instance validated_data !! f
            = Some v)
  ∧ (∀ f, f ≠ "password"%string → validated_data !! f = None →
          UserSerializer.update make_password instance validated_data !! f
          = instance !! f).
Proof.
  unfold UserSerializer.update.
  assert ((delete "password"%string validated_data ∪ instance) !! "password"%string
          = instance !! "password"%string) as Hpw
    by apply lookup_union_r, lookup_delete_eq.
  assert (∀ f v, f ≠ "password"%string → validated_data !! f = Some v →
                 (delete "password"%string validated_data ∪ instance) !! f = Some v)
    as Hset.
  { intros f v Hf Hv. apply lookup_union_Some_l. now rewrite lookup_delete_ne. }
  assert (∀ f, f ≠ "password"%string → validated_data !! f = None →
               (delete "password"%string validated_data ∪ instance) !! f
               = instance !! f) as Hkeep.
  { intros f Hf Hv. apply lookup_union_r. now rewrite lookup_delete_ne. }
  repeat split.
  - intros p Hp Ht. rewrite Hp, Ht. apply lookup_insert_eq.
  - intros p Hp Ht. rewrite Hp, Ht. apply Hpw.
  - intros Hp. rewrite Hp. apply Hpw.
  - intros f v Hf Hv.
    destruct (validated_data !! "password"%string) as [p|]; [|now apply Hset].
    destruct (truthy p); [|now apply Hset].
    rewrite lookup_insert_ne by congruence. now apply Hset.
  - intros f Hf Hv.
    destruct (validated_data !! "password"%string) as [p|]; [|now apply Hkeep].
    destruct (truthy p); [|now apply Hkeep].
    rewrite lookup_insert_ne by congruence. now apply Hkeep.
Qed.

End UserPasswords.

Section UserPasswordsWitnesses.
Import Py models serializers.

(** A stand-in for the hash: it wraps the password in a list. *)
Lemma user_create_password_witness :
  let hash := fun p => VList [p] in
  let defaults : gmap string pyval := {[ "role"%string := VStr "VENDEDOR" ]} in
  let vd : gmap string pyval :=
    {[ "username"%string := VStr "ana"; "password"%string := VStr "secreto" ]} in
  let vd0 : gmap string pyval :=
    {[ "username"%string := VStr "ana"; "password"%string := VStr "" ]} in
  let vd1 : gmap string pyval := {[ "username"%string := VStr "ana" ]} in
  UserSerializer.create hash defaults vd !! "password"%string
  = Some (VList [VStr "secreto"])
  ∧ UserSerializer.create hash defaults vd0 !! "password"%string = None
  ∧ UserSerializer.create hash defaults vd1 !! "password"%string = None
  ∧ UserSerializer.create hash defaults vd !! "username"%string = Some (VStr "ana").
Proof.
  intros hash defaults vd vd0 vd1.
  split.
  { apply (proj1 (user_create_password hash defaults vd) (VStr "secreto"));
      vm_compute; reflexivity. }
  split.
  { rewrite (proj1 (proj2 (user_create_password hash defaults vd0)) (VStr ""));
      vm_compute; reflexivity. }
  split.
  { rewrite (proj1 (proj2 (proj2 (user_create_password hash defaults vd1))));
      vm_compute; reflexivity. }
  apply (proj2 (proj2 (proj2 (user_create_password hash defaults vd))));
    [discriminate | vm_compute; reflexivity].
Defined.

Lemma user_update_password_witness :
  let hash := fun p => VList [p] in
  let instance : gmap string pyval :=
    {[ "username"%string := VStr "ana"; "email"%string := VStr "ana@example.cl";
       "password"%string := VList [VStr "secreto"] ]} in
  let vd : gmap string pyval :=
    {[ "email"%string := VStr "a@example.cl"; "password"%string := VStr "nuevo" ]} in
  let vd0 : gmap string pyval :=
    {[ "email"%string := VStr "a@example.cl"; "password"%string := VStr "" ]} in
  let vd1 : gmap string pyval := {[ "email"%string := VStr "a@example.cl" ]} in
  UserSerializer.update hash instance vd !! "password"%string
  = Some (VList [VStr "nuevo"])
  ∧ UserSerializer.update hash instance vd0 !! "password"%string
    = Some (VList [VStr "secreto"])
  ∧ UserSerializer.update hash instance vd1 !! "password"%string
    = Some (VList [VStr "secreto"])
  ∧ UserSerializer.update hash instance vd1 !! "email"%string
    = Some (VStr "a@example.cl")
  ∧ UserSerializer.update hash instance vd1 !! "username"%string = Some (VStr "ana").
Proof.
  intros hash instance vd vd0 vd1.
  destruct (user_update_password hash instance vd) as (H1 & _).
  destruct (user_update_password hash instance vd0) as (_ & H2 & _).
  destruct (user_update_password hash instance vd1) as (_ & _ & H3 & H4 & H5).
  split; [apply (H1 (VStr "nuevo")); vm_compute; reflexivity|].
  split; [rewrite (H2 (VStr "")); vm_compute; reflexivity|].
  split; [rewrite H3; vm_compute; reflexivity|].
  split; [apply H4; [discriminate | vm_compute; reflexivity]|].
  rewrite H5; [vm_compute; reflexivity | discriminate | vm_compute; reflexivity].
Defined.

End UserPasswordsWitnesses.

(* ===================================================================== *)
(** * Orders, roles, choices and cart rows                                *)
(* ===================================================================== *)

Section OrderRequests.
Import Py models serializers.

Lemma validate_fields_value (run_field : string → pyval → outcome pyval)
    (data : gmap string pyval) (names : list string) (vd : gmap string pyval)
    (f : string) (v : pyval) :
  OrderSerializer.validate_fields run_field data names = Return vd →
  f ∈ names → data !! f = Some v →
  ∃ v', run_field f v = Return v' ∧ vd !! f = Some v'.
Proof.
  revert vd. induction names as [|g names IH]; intros vd Hv Hin Hf.
  - inversion Hin.
  - simpl in Hv. destruct (decide (g = f)) as [->|Hne].
    + rewrite Hf in Hv.
      destruct (run_field f v) as [v'|e]; simpl in Hv; [|discriminate].
      destruct (OrderSerializer.validate_fields run_field data names) as [rest|e];
        simpl in Hv; [|discriminate].
      injection Hv as <-. exists v'. split; [reflexivity | apply lookup_insert_eq].
    + assert (f ∈ names) as Hin' by (inversion Hin; subst; congruence).
      destruct (data !! g) as [w|].
      * destruct (run_field g w) as [w'|e]; simpl in Hv; [|discriminate].
        destruct (OrderSerializer.validate_fields run_field data names) as [rest|e];
          simpl in Hv; [|discriminate].
        injection Hv as <-. destruct (IH rest eq_refl Hin' Hf) as [v' [Hr Hl]].
        exists v'. split; [exact Hr|]. now rewrite lookup_insert_ne.
      * match type of Hv with context [if ?b then Raise _ else _] => destruct b end;
          [discriminate|].
        exact (IH vd Hv Hin' Hf).
Qed.

Lemma validate_fields_required (run_field : string → pyval → outcome pyval)
    (data : gmap string pyval) (names : list string) (f : string) :
  f ∈ names → existsb (String.eqb f) OrderSerializer.required_fields = true →
  data !! f = None →
  ∃ e, OrderSerializer.validate_fields run_field data names = Raise e.
Proof.
  intros Hin Hreq Hf. induction names as [|g names IH]; [inversion Hin|].
  cbn [OrderSerializer.validate_fields]. destruct (decide (g = f)) as [->|Hne].
  - rewrite Hf, Hreq. eauto.
  - assert (f ∈ names) as Hin' by (inversion Hin; subst; congruence).
    destruct (IH Hin') as [e He]. rewrite He.
    destruct (data !! g) as [w|].
    + destruct (run_field g w); simpl; eauto.
    + match goal with |- context [if ?b then Raise _ else _] => destruct b end; eauto.
Qed.

(** The name and e-mail of a saved order are those of the request as
    their fields validated and normalised them, and a request that
    lacks one of them is refused before anything is saved. *)
Theorem order_keeps_client_fields :
  (∀ (run_field : string → pyval → outcome pyval) (adapts : string → pyval → bool)
     (data vd kwargs : gmap string pyval) (o : Order) (name email : pyval),
      OrderSerializer.to_internal_value run_field data = Return vd →
      data !! "client_name"%string = Some name →
      data !! "client_email"%string = Some email →
      kwargs !! "client_name"%string = None →
      kwargs !! "client_email"%string = None →
      OrderSerializer.save adapts vd kwargs = Some o →
      run_field "client_name"%string name = Return (client_name o)
      ∧ run_field "client_email"%string email = Return (client_email o))
  ∧ (∀ (run_field : string → pyval → outcome pyval) (data : gmap string pyval),
      data !! "client_name"%string = None ∨ data !! "client_email"%string = None →
      ∃ e, OrderSerializer.to_internal_value run_field data = Raise e).
Proof.
  split.
  - intros run_field adapts data vd kwargs o name email Hv Hname Hemail Hkn Hke.
    destruct (validate_fields_value run_field data _ vd "client_name" name Hv
                ltac:(apply list_elem_of_In; vm_compute; tauto) Hname) as [n [Hrn Hln]].
    destruct (validate_fields_value run_field data _ vd "client_email" email Hv
                ltac:(apply list_elem_of_In; vm_compute; tauto) Hemail) as [m [Hrm Hlm]].
    unfold OrderSerializer.save, Order_create.
    destruct (_ && _); [|discriminate].
    intros [= <-]. simpl. unfold Order_attribute.
    rewrite (lookup_union_r kwargs vd "client_name"%string Hkn), Hln.
    rewrite (lookup_union_r kwargs vd "client_email"%string Hke), Hlm.
    simpl. auto.
  - intros run_field data [H|H].
    + apply (validate_fields_required run_field data _ "client_name");
        [apply list_elem_of_In; vm_compute; tauto | reflexivity | exact H].
    + apply (validate_fields_required run_field data _ "client_email");
        [apply list_elem_of_In; vm_compute; tauto | reflexivity | exact H].
Qed.

(** The statement with fields that accept their values as they are,
    except that the name field answers "Ana" for " Ana ". *)
Lemma order_keeps_client_fields_witness :
  let run_field := fun (f : string) (v : pyval) =>
    if String.eqb f "client_name" then Return (VStr "Ana") else Return v in
  let adapts := fun (_ : string) (_ : pyval) => true in
  let data : gmap string pyval :=
    {[ "client_name"%string := VStr " Ana "; "client_email"%string := VStr "ana@example.cl";
       "status"%string := VStr "ENTREGADO" ]} in
  let vd : gmap string pyval :=
    {[ "client_name"%string := VStr "Ana"; "client_email"%string := VStr "ana@example.cl" ]} in
  let kwargs : gmap string pyval :=
    {[ "company"%string := VInt 3; "total"%string := VInt 250000 ]} in
  let o := {| order_company := VInt 3; client_user := VNone; client_name := VStr "Ana";
              client_email := VStr "ana@example.cl"; status := VStr "PENDIENTE";
              order_total := VInt 250000 |} in
  OrderSerializer.to_internal_value run_field data = Return vd
  ∧ OrderSerializer.save adapts vd kwargs = Some o
  ∧ run_field "client_name"%string (VStr " Ana ") = Return (client_name o)
  ∧ run_field "client_email"%string (VStr "ana@example.cl") = Return (client_email o)
  ∧ ∃ e, OrderSerializer.to_internal_value run_field (delete "client_email"%string data)
         = Raise e.
Proof.
  intros run_field adapts data vd kwargs o.
  assert (OrderSerializer.to_internal_value run_field data = Return vd) as Hv
    by (vm_compute; reflexivity).
  assert (OrderSerializer.save adapts vd kwargs = Some o) as Hs
    by (vm_compute; reflexivity).
  split; [exact Hv|]. split; [exact Hs|].
  destruct (proj1 order_keeps_client_fields run_field adapts data vd kwargs o
              (VStr " Ana ") (VStr "ana@example.cl") Hv
              ltac:(vm_compute; reflexivity) ltac:(vm_compute; reflexivity)
              ltac:(vm_compute; reflexivity) ltac:(vm_compute; reflexivity) Hs)
    as [H1 H2].
  split; [exact H1|]. split; [exact H2|].
  apply (proj2 order_keeps_client_fields). right. apply lookup_delete_eq.
Defined.

(** The three role tests exclude one another, and a user with the
    default role, or with the role of a final client, passes none. *)
Theorem role_tests_exclusive (u : User) :
  (is_super_admin u && is_admin_cliente u = false)
  ∧ (is_super_admin u && is_gerente u = false)
  ∧ (is_admin_cliente u && is_gerente u = false)
  ∧ (role u = User_role_default ∨ role u = UserRoles_value CLIENTE_FINAL →
     is_super_admin u = false ∧ is_admin_cliente u = false ∧ is_gerente u = false).
Proof.
  unfold is_super_admin, is_admin_cliente, is_gerente.
  repeat split.
  - destruct (String.eqb_spec (role u) (UserRoles_value SUPER_ADMIN)) as [->|]; reflexivity.
  - destruct (String.eqb_spec (role u) (UserRoles_value SUPER_ADMIN)) as [->|]; reflexivity.
  - destruct (String.eqb_spec (role u) (UserRoles_value ADMIN_CLIENTE)) as [->|]; reflexivity.
  - destruct H as [-> | ->]; reflexivity.
  - destruct H as [-> | ->]; reflexivity.
  - destruct H as [-> | ->]; reflexivity.
Qed.

Lemma role_tests_exclusive_witness :
  let u := {| user_company := Some 1; user_rut := lit "76086428-5";
              role := User_role_default; user_is_active := true |} in
  is_super_admin u = false ∧ is_admin_cliente u = false ∧ is_gerente u = false.
Proof.
  intros u. apply (proj2 (proj2 (proj2 (role_tests_exclusive u)))). left. reflexivity.
Defined.

(** Every choice fits the column that stores it, and a stored order
    status reads back as the status it was written from. *)
Theorem choices_fit_columns :
  (∀ r, (String.length (UserRoles_value r) <= role_max_length)%nat)
  ∧ (∀ p, (String.length (SubscriptionPlans_value p) <= plan_name_max_length)%nat)
  ∧ (∀ s, (String.length (OrderStatus_value s) <= status_max_length)%nat)
  ∧ (∀ m, (String.length (PaymentMethods_value m) <= payment_method_max_length)%nat)
  ∧ (∀ s, OrderStatus_of_value (VStr (OrderStatus_value s)) = Some s).
Proof.
  repeat split.
  - intros []; vm_compute; lia.
  - intros []; vm_compute; lia.
  - intros []; vm_compute; lia.
  - intros []; vm_compute; lia.
  - intros []; reflexivity.
Qed.

End OrderRequests.

Section CartRows.
Import Py models serializers.

(** What a write through the serializer does with a product that exists
    and a quantity in range: it writes the row. *)
Lemma serializer_save_valid (integer_max : Z) (product_table : gmap pk Product)
    (table : gmap pk CartItem) (key : pk) (owner : option pk)
    (session : option string) (product value : Z) :
  is_Some (product_table !! product) → 1 <= value <= integer_max →
  CartItemSerializer.save integer_max product_table table key owner session product value
  = CartItem_save table key {| user := owner; session_key := session;
                               cart_item_product := product; quantity := value |}.
Proof.
  intros [row Hrow] Hv.
  unfold CartItemSerializer.save, product_field, quantity_field, MinValueValidator,
    CartItemSerializer.validate_quantity.
  rewrite Hrow. simpl.
  destruct (Z.ltb_spec integer_max value); [lia|].
  destruct (Z.leb_spec 1 value); [|lia]. simpl.
  destruct (Z.ltb_spec value 1); [lia | reflexivity].
Qed.

(** A second row for a product a user already has in the cart is refused
    by the database, whatever valid quantity it carries: the quantities
    are not added up, and the cart stays as it was. *)
Theorem cart_second_row_refused (integer_max : Z) (product_table : gmap pk Product)
    (table : gmap pk CartItem) (key key' : pk)
    (row : CartItem) (u : pk) (session : option string) (product value : Z) :
  table !! key = Some row → key ≠ key' →
  user row = Some u → cart_item_product row = product →
  is_Some (product_table !! product) → 1 <= value <= integer_max →
  CartItemSerializer.save integer_max product_table table key' (Some u) session
    product value = Raise IntegrityError
  ∧ Cart.step integer_max product_table table
      (Cart.Write key' (Some u) session product value) = table.
Proof.
  intros Hrow Hne Hu Hp Hprod Hv.
  assert (CartItemSerializer.save integer_max product_table table key' (Some u) session
            product value = Raise IntegrityError) as Hs.
  { rewrite (serializer_save_valid _ _ _ _ _ _ _ _ Hprod Hv). unfold CartItem_save.
    destruct (CartItem_unique table key' _) eqn:Huniq; [|reflexivity].
    pose proof (CartItem_unique_spec table key' _ row key Huniq Hrow Hne) as Hc.
    unfold CartItem_collides, same_user_product in Hc. simpl in Hc.
    rewrite Hu, Hp, !Z.eqb_refl in Hc. discriminate. }
  split; [exact Hs|]. unfold Cart.step. simpl. now rewrite Hs.
Qed.

Lemma cart_second_row_refused_witness :
  let p := {| product_company := 1; sku := "A-1"; product_name := "pan";
              price := 100000; cost := 60000; category := "x";
              product_is_active := true |} in
  let products : gmap pk Product := {[ 9 := p ]} in
  let row := {| user := Some 4; session_key := None; cart_item_product := 9;
                quantity := 2 |} in
  ({[ 1 := row ]} : gmap pk CartItem) !! 1 = Some row
  ∧ is_Some (products !! 9)
  ∧ CartItemSerializer.save 2147483647 products {[ 1 := row ]} 2 (Some 4) None 9 3
    = Raise IntegrityError
  ∧ Cart.step 2147483647 products {[ 1 := row ]} (Cart.Write 2 (Some 4) None 9 3)
    = {[ 1 := row ]}.
Proof.
  intros p products row.
  assert (({[ 1 := row ]} : gmap pk CartItem) !! 1 = Some row) as Hrow
    by apply lookup_singleton_eq.
  assert (is_Some (products !! 9)) as Hp
    by (unfold products; rewrite lookup_singleton_eq; eexists; reflexivity).
  split; [exact Hrow|]. split; [exact Hp|].
  apply (cart_second_row_refused 2147483647 products {[ 1 := row ]} 1 2 row 4 None 9 3
           Hrow); [lia | reflexivity | reflexivity | exact Hp | lia].
Defined.

Lemma distinct_no_collision (a b : CartItem) :
  (∀ u, user a = Some u → user b = Some u →
        cart_item_product a ≠ cart_item_product b) →
  (∀ s, session_key a = Some s → session_key b = Some s →
        cart_item_product a ≠ cart_item_product b) →
  CartItem_collides a b = false.
Proof.
  intros Hu Hs. unfold CartItem_collides, same_user_product, same_session_product.
  apply orb_false_iff. split.
  - destruct (user a) as [u|], (user b) as [v|]; try reflexivity.
    destruct (Z.eqb_spec u v) as [->|]; [|reflexivity]. simpl.
    apply Z.eqb_neq. now apply (Hu v).
  - destruct (session_key a) as [k|], (session_key b) as [l|]; try reflexivity.
    destruct (String.eqb_spec k l) as [->|]; [|reflexivity]. simpl.
    apply Z.eqb_neq. now apply (Hs l).
Qed.

(** Changing the quantity of a row of the cart to a value between 1 and
    the database's largest integer always succeeds, as long as its
    product is still on sale, and touches that row only. *)
Theorem cart_quantity_update_succeeds (integer_max : Z)
    (product_table : gmap pk Product) (table : gmap pk CartItem) (key : pk)
    (row : CartItem) (value : Z) :
  Cart.one_row_per_product table → table !! key = Some row →
  is_Some (product_table !! cart_item_product row) → 1 <= value <= integer_max →
  CartItemSerializer.save integer_max product_table table key (user row)
    (session_key row) (cart_item_product row) value
  = Return (<[key := {| user := user row; session_key := session_key row;
                        cart_item_product := cart_item_product row;
                        quantity := value |}]> table).
Proof.
  intros Hinv Hrow Hprod Hv.
  rewrite (serializer_save_valid _ _ _ _ _ _ _ _ Hprod Hv). unfold CartItem_save.
  assert (CartItem_unique table key
            {| user := user row; session_key := session_key row;
               cart_item_product := cart_item_product row; quantity := value |}
          = true) as ->; [|reflexivity].
  unfold CartItem_unique. apply List.forallb_forall. intros [k r] Hin. simpl.
  apply list_elem_of_In, elem_of_map_to_list in Hin.
  destruct (Z.eqb_spec k key) as [|Hk]; [reflexivity|]. simpl.
  apply negb_true_iff.
  destruct (Hinv k key r row Hk Hin Hrow) as [Hu Hs].
  apply distinct_no_collision; simpl; assumption.
Qed.

Lemma empty_cart_valid :
  Cart.quantities_positive ∅ ∧ Cart.one_row_per_product ∅.
Proof.
  split.
  - intros k r Hk. rewrite lookup_empty in Hk. discriminate.
  - intros k1 k2 r1 r2 _ Hk. rewrite lookup_empty in Hk. discriminate.
Qed.

Lemma cart_quantity_update_succeeds_witness :
  let p := {| product_company := 1; sku := "A-1"; product_name := "pan";
              price := 100000; cost := 60000; category := "x";
              product_is_active := true |} in
  let products : gmap pk Product := {[ 9 := p ]} in
  let row := {| user := Some 4; session_key := None; cart_item_product := 9;
                quantity := 2 |} in
  let table : gmap pk CartItem :=
    Cart.run 2147483647 products [Cart.Write 1 (Some 4) None 9 2] ∅ in
  Cart.one_row_per_product table
  ∧ table !! 1 = Some row
  ∧ is_Some (products !! 9)
  ∧ CartItemSerializer.save 2147483647 products table 1 (Some 4) None 9 7
    = Return (<[1 := {| user := Some 4; session_key := None; cart_item_product := 9;
                        quantity := 7 |}]> table).
Proof.
  intros p products row table.
  assert (Cart.one_row_per_product table) as Hinv
    by exact (proj2 (run_preserves 2147483647 products
                       [Cart.Write 1 (Some 4) None 9 2] ∅ empty_cart_valid)).
  assert (table !! 1 = Some row) as Hrow by (vm_compute; reflexivity).
  assert (is_Some (products !! 9)) as Hp
    by (unfold products; rewrite lookup_singleton_eq; eexists; reflexivity).
  split; [exact Hinv|]. split; [exact Hrow|]. split; [exact Hp|].
  exact (cart_quantity_update_succeeds 2147483647 products table 1 row 7 Hinv Hrow Hp
           ltac:(lia)).
Defined.

End CartRows.

Section DocumentLines.
Import Py models serializers.

(** A line with the three fields present is accepted as soon as its
    product exists, its quantity lies between 1 and the database's
    largest integer and its unit value has at most ten digits: the unit
    value may be zero or negative, and it is stored as given by each of
    the three item serializers. *)
Theorem line_accepted_with_any_unit_value (integer_max : Z)
    (digits_message : decimal → pystr) (product_table : gmap pk Product)
    (parent p : pk) (q : Z) (v : decimal) :
  is_Some (product_table !! p) → 1 <= q <= integer_max → - 10 ^ 10 < v < 10 ^ 10 →
  let data := {| data_product := Some p; data_quantity := Some q;
                 unit_value := Some v |} in
  SaleItemSerializer.run_validation integer_max digits_message product_table parent data
  = Return {| sale := parent; sale_item_product := p; sale_item_quantity := q;
              price_at_sale := v |}
  ∧ PurchaseItemSerializer.run_validation integer_max digits_message product_table
      parent data
    = Return {| purchase := parent; purchase_item_product := p;
                purchase_item_quantity := q; cost_at_purchase := v |}
  ∧ OrderItemSerializer.run_validation integer_max digits_message product_table
      parent data
    = Return {| order := parent; order_item_product := p; order_item_quantity := q;
                price_at_order := v |}.
Proof.
  intros Hprod Hq Hv data.
  assert (item_run_validation integer_max digits_message product_table data
          = Return (p, q, v)) as Hrun.
  { unfold item_run_validation, fits_max_digits. simpl.
    rewrite (proj2 (product_field_Return product_table p p) (conj eq_refl Hprod)). simpl.
    rewrite (proj2 (quantity_field_Return integer_max q q) (conj eq_refl Hq)). simpl.
    destruct (Z.ltb_spec (Z.abs v) (10 ^ 10)); [reflexivity | lia]. }
  unfold SaleItemSerializer.run_validation, PurchaseItemSerializer.run_validation,
    OrderItemSerializer.run_validation.
  rewrite Hrun. simpl. auto.
Qed.

Lemma line_accepted_with_any_unit_value_witness :
  let p := {| product_company := 1; sku := "A-1"; product_name := "pan";
              price := 100000; cost := 60000; category := "x";
              product_is_active := true |} in
  is_Some (({[ 1 := p ]} : gmap pk Product) !! 1)
  ∧ SaleItemSerializer.run_validation 2147483647 (fun _ => []) {[ 1 := p ]} 7
      {| data_product := Some 1; data_quantity := Some 2; unit_value := Some (-500) |}
    = Return {| sale := 7; sale_item_product := 1; sale_item_quantity := 2;
                price_at_sale := -500 |}.
Proof.
  intros p.
  assert (is_Some (({[ 1 := p ]} : gmap pk Product) !! 1)) as Hp
    by (rewrite lookup_singleton_eq; eexists; reflexivity).
  split; [exact Hp|].
  exact (proj1 (line_accepted_with_any_unit_value 2147483647 (fun _ => []) {[ 1 := p ]}
                  7 1 2 (-500) Hp ltac:(lia) ltac:(lia))).
Defined.





End DocumentLines.
